(** * code_validation.py: a shallow embedding and its checked properties

    The development follows [src/code_validation.py].  Python [str] values
    are lists of characters restricted to the ASCII range; the character
    classes used by [str.strip], [str.upper] and the [re] module are the
    ASCII restrictions of Python's.  The [ast] module is not part of the
    repository: what [ast.parse], [ast.walk] and [ast.get_docstring] return
    for a file is an input of the structural checks. *)

From Stdlib Require Import String Ascii List ZArith Lia Bool Arith.
From Stdlib Require Import Numbers.DecimalString Sorted.
Import ListNotations.

Open Scope list_scope.

(** ** Python values *)

Definition str := list ascii.

(** [lit "abc"] is the Python literal ['abc']. *)
Definition lit (s : string) : str := list_ascii_of_string s.

Definition newline : ascii := "010"%char.
Definition quote : ascii := "034"%char.

(** Exceptions the modelled code can raise. *)
Inductive exn :=
  IndexError | TypeError | KeyError | SyntaxError | FileNotFoundError.

Inductive result (A : Type) :=
| Ok (a : A)
| Raise (e : exn).
Arguments Ok {A} a.
Arguments Raise {A} e.

Definition bind {A B} (r : result A) (k : A -> result B) : result B :=
  match r with
  | Ok a => k a
  | Raise e => Raise e
  end.

Notation "x <- c ;; k" := (bind c (fun x => k))
  (at level 61, c at next level, right associativity).

(** ** Python sequences *)

Module Py.

(** [l[i]]: a negative index counts from the end, an index outside
    [-len, len) raises [IndexError]. *)
Definition index {A} (l : list A) (i : Z) : result A :=
  let n := Z.of_nat (length l) in
  let j := (if i <? 0 then i + n else i)%Z in
  if ((j <? 0) || (n <=? j))%Z then Raise IndexError
  else match nth_error l (Z.to_nat j) with
       | Some a => Ok a
       | None => Raise IndexError
       end.

(** The bound normalisation of [l[start:stop]]. *)
Definition clamp (n i : Z) : Z :=
  let j := (if i <? 0 then i + n else i)%Z in
  Z.max 0 (Z.min n j).

(** [l[start:stop]]. *)
Definition slice {A} (l : list A) (start stop : Z) : list A :=
  let n := Z.of_nat (length l) in
  let a := Z.to_nat (clamp n start) in
  let b := Z.to_nat (clamp n stop) in
  firstn (b - a) (skipn a l).

(** [l.pop(i)] for an index known to be inside the list: the list that
    remains. *)
Definition pop {A} (i : nat) (l : list A) : list A :=
  firstn i l ++ skipn (S i) l.

(** Whitespace of [str.strip()] and of the [\s] class, ASCII range:
    TAB, LF, VT, FF, CR, FS, GS, RS, US and the space. *)
Definition isspace (c : ascii) : bool :=
  let n := nat_of_ascii c in
  ((9 <=? n) && (n <=? 13)) || ((28 <=? n) && (n <=? 32)).

Definition islower (c : ascii) : bool :=
  let n := nat_of_ascii c in (97 <=? n) && (n <=? 122).

Definition isupper (c : ascii) : bool :=
  let n := nat_of_ascii c in (65 <=? n) && (n <=? 90).

Definition isdigit (c : ascii) : bool :=
  let n := nat_of_ascii c in (48 <=? n) && (n <=? 57).

(** The [\w] class, ASCII range. *)
Definition isword (c : ascii) : bool :=
  islower c || isupper c || isdigit c || Ascii.eqb c "_"%char.

Definition upper_char (c : ascii) : ascii :=
  if islower c then ascii_of_nat (nat_of_ascii c - 32) else c.

(** [s.upper()]. *)
Definition upper (s : str) : str := map upper_char s.

Fixpoint lstrip (s : str) : str :=
  match s with
  | c :: s' => if isspace c then lstrip s' else s
  | [] => []
  end.

Definition rstrip (s : str) : str := rev (lstrip (rev s)).

(** [s.strip()]. *)
Definition strip (s : str) : str := rstrip (lstrip s).

(** [s.startswith(p)]. *)
Fixpoint startswith (p s : str) : bool :=
  match p, s with
  | [], _ => true
  | a :: p', b :: s' => Ascii.eqb a b && startswith p' s'
  | _ :: _, [] => false
  end.

(** [p in s]. *)
Fixpoint contains (p s : str) : bool :=
  startswith p s ||
  match s with
  | _ :: s' => contains p s'
  | [] => false
  end.

(** [s.count(c)] for a one-character [c]. *)
Definition count (c : ascii) (s : str) : nat :=
  length (filter (Ascii.eqb c) s).

(** [sep.join(parts)]. *)
Fixpoint join (sep : str) (parts : list str) : str :=
  match parts with
  | [] => []
  | [p] => p
  | p :: rest => p ++ sep ++ join sep rest
  end.

(** [str(n)] for an integer. *)
Definition str_of_int (n : Z) : str :=
  lit (NilEmpty.string_of_int (Z.to_int n)).

(** [f.readlines()] on the text of a file: every line keeps its
    terminating newline, the last one has none when the text does not end
    with one. *)
Fixpoint readlines_from (cur : str) (s : str) : list str :=
  match s with
  | [] => match cur with [] => [] | _ => [rev cur] end
  | c :: s' =>
      if Ascii.eqb c newline then rev (c :: cur) :: readlines_from [] s'
      else readlines_from (c :: cur) s'
  end.

Definition readlines (text : str) : list str := readlines_from [] text.

(** Line boundaries of [str.splitlines()], ASCII range, [\r] apart. *)
Definition islinebreak (c : ascii) : bool :=
  let n := nat_of_ascii c in
  (n =? 10) || (n =? 11) || (n =? 12) || (n =? 28) || (n =? 29) || (n =? 30).

(** [s.splitlines()]: terminators are dropped, [\r\n] is one boundary. *)
Fixpoint splitlines_from (cur : str) (s : str) : list str :=
  match s with
  | [] => match cur with [] => [] | _ => [rev cur] end
  | c :: s' =>
      if Ascii.eqb c "013"%char then
        match s' with
        | d :: s'' =>
            if Ascii.eqb d newline then rev cur :: splitlines_from [] s''
            else rev cur :: splitlines_from [] s'
        | [] => rev cur :: splitlines_from [] s'
        end
      else if islinebreak c then rev cur :: splitlines_from [] s'
      else splitlines_from (c :: cur) s'
  end.

Definition splitlines (text : str) : list str := splitlines_from [] text.

End Py.

(** The test [line.strip().startswith('#')] shared by four checks. *)
Definition is_comment_line (line : str) : bool :=
  Py.startswith (lit "#") (Py.strip line).

(** ** The fragment of the [re] module the checks use

    A pattern is a sequence of atoms.  Matching is the backtracking search of
    [re]: a greedy repetition tries the longest run first, a lazy one the
    shortest, and [search] tries the start positions from left to right. *)

Module Re.

Inductive atom :=
| Chr (c : ascii)                 (* a literal character *)
| Cls (p : ascii -> bool)         (* a class: [\s], [\w], [.] *)
| Star (p : ascii -> bool)        (* [p*], greedy *)
| Plus (p : ascii -> bool)        (* [p+], greedy *)
| LazyStar (p : ascii -> bool)    (* [p*?] *)
| WordB                           (* [\b] *)
| GOpen                           (* [(] of group 1 *)
| GClose.                         (* [)] of group 1 *)

Definition pattern := list atom.

(** [.] without and with [re.DOTALL]. *)
Definition dot (c : ascii) : bool := negb (Ascii.eqb c newline).
Definition dotall (c : ascii) : bool := true.

(** A match: the bounds of group 1 and the position where it ends. *)
Definition found : Type := (nat * nat) * nat.

(** The rest of a match, run after a repetition. *)
Definition cont : Type := option ascii -> str -> nat -> option found.

Fixpoint greedy (p : ascii -> bool) (k : cont)
    (prev : option ascii) (s : str) (pos : nat) : option found :=
  match s with
  | c :: s' =>
      if p c then
        match greedy p k (Some c) s' (S pos) with
        | Some r => Some r
        | None => k prev s pos
        end
      else k prev s pos
  | [] => k prev s pos
  end.

Fixpoint lazy (p : ascii -> bool) (k : cont)
    (prev : option ascii) (s : str) (pos : nat) : option found :=
  match k prev s pos with
  | Some r => Some r
  | None =>
      match s with
      | c :: s' => if p c then lazy p k (Some c) s' (S pos) else None
      | [] => None
      end
  end.

Definition word_before (prev : option ascii) : bool :=
  match prev with Some c => Py.isword c | None => false end.

Definition word_after (s : str) : bool :=
  match s with c :: _ => Py.isword c | [] => false end.

(** [m r g prev s pos]: match [r] against [s], which starts at position
    [pos] of the subject and is preceded there by [prev]. *)
Fixpoint m (r : pattern) (g : nat * nat)
    (prev : option ascii) (s : str) (pos : nat) : option found :=
  match r with
  | [] => Some (g, pos)
  | Chr c :: r' =>
      match s with
      | x :: s' => if Ascii.eqb x c then m r' g (Some x) s' (S pos) else None
      | [] => None
      end
  | Cls p :: r' =>
      match s with
      | x :: s' => if p x then m r' g (Some x) s' (S pos) else None
      | [] => None
      end
  | Star p :: r' => greedy p (m r' g) prev s pos
  | Plus p :: r' =>
      match s with
      | x :: s' => if p x then greedy p (m r' g) (Some x) s' (S pos) else None
      | [] => None
      end
  | LazyStar p :: r' => lazy p (m r' g) prev s pos
  | WordB :: r' =>
      if xorb (word_before prev) (word_after s) then m r' g prev s pos
      else None
  | GOpen :: r' => m r' (pos, snd g) prev s pos
  | GClose :: r' => m r' (fst g, pos) prev s pos
  end.

(** The leftmost match at or after the current position, with the
    position where it starts. *)
Fixpoint search_from (r : pattern) (prev : option ascii) (s : str)
    (pos : nat) : option (nat * found) :=
  match m r (0, 0) prev s pos with
  | Some f => Some (pos, f)
  | None =>
      match s with
      | c :: s' => search_from r (Some c) s' (S pos)
      | [] => None
      end
  end.

(** [re.search(r, s)]. *)
Definition search (r : pattern) (s : str) : option (nat * found) :=
  search_from r None s 0.

(** [match.groups()[0]] for a match found in [s]. *)
Definition group1 (s : str) (f : nat * found) : str :=
  let '(_, ((a, b), _)) := f in firstn (b - a) (skipn a s).

(** [re.sub(r, '', s)]: the characters of the leftmost non-overlapping
    matches are dropped; [skip] counts those of the current match still
    to drop. *)
Fixpoint sub_from (r : pattern) (prev : option ascii) (s : str)
    (pos skip : nat) : str :=
  match s with
  | [] => []
  | c :: s' =>
      match skip with
      | S k => sub_from r (Some c) s' (S pos) k
      | O =>
          match m r (0, 0) prev s pos with
          | Some (_, e) =>
              if pos <? e then sub_from r (Some c) s' (S pos) (e - pos - 1)
              else c :: sub_from r (Some c) s' (S pos) 0
          | None => c :: sub_from r (Some c) s' (S pos) 0
          end
      end
  end.

Definition sub_empty (r : pattern) (s : str) : str := sub_from r None s 0 0.

End Re.

(** The patterns of the source. *)

(** [r'from\s(G)\simport\s'] where the group [G] is a greedy [.*] *)
Definition FROM_IMPORT : Re.pattern :=
  map Re.Chr (lit "from") ++
  [Re.Cls Py.isspace; Re.GOpen; Re.Star Re.dot; Re.GClose; Re.Cls Py.isspace] ++
  map Re.Chr (lit "import") ++ [Re.Cls Py.isspace].

(** [r'\b(\w+)\s*='] *)
Definition ASSIGNED_NAME : Re.pattern :=
  [Re.WordB; Re.GOpen; Re.Plus Py.isword; Re.GClose; Re.Star Py.isspace;
   Re.Chr "="%char].

(** [r'#.*'] *)
Definition COMMENT_SUFFIX : Re.pattern := [Re.Chr "#"%char; Re.Star Re.dot].

(** The pattern of [remove_docstring]: three double quotes, [.*?] under
    [re.DOTALL], three double quotes. *)
Definition DOCSTRING : Re.pattern :=
  [Re.Chr quote; Re.Chr quote; Re.Chr quote; Re.LazyStar Re.dotall;
   Re.Chr quote; Re.Chr quote; Re.Chr quote].

(** ** What the [ast] module reports about a file

    [walk] lists the nodes in the order of [ast.walk(tree)], [body] is
    [tree.body].  A definition node carries its name, [lineno], [end_lineno]
    (absent on interpreters that do not report it) and the value of
    [ast.get_docstring(node)]. *)

Inductive node :=
| FunctionDef (name : str) (lineno : Z) (end_lineno : option Z)
    (docstring : option str)
| ClassDef (name : str) (lineno : Z) (docstring : option str)
| ExprStr                      (* an expression statement holding a string *)
| OtherNode.

Record tree := { body : list node; walk : list node }.

(** [bool(ast.get_docstring(node))] *)
Definition truthy (docstring : option str) : bool :=
  match docstring with
  | Some (_ :: _) => true
  | _ => false
  end.

(** A [for] loop whose body can raise. *)
Fixpoint for_each {A St} (items : list A) (step : St -> A -> result St)
    (acc : St) : result St :=
  match items with
  | [] => Ok acc
  | x :: rest => acc' <- step acc x ;; for_each rest step acc'
  end.

(** ** The checks *)

Definition MAX_FILE_LINES : nat := 2000.
Definition MAX_LINE_CHARACTERS : nat := 150.
Definition MAX_VARIABLE_NAME_LENGTH : nat := 25.
Definition MAX_LINES_PER_METHOD : nat := 40.

(** The body of the loop of [check_invalid_imports]. *)
Definition invalid_imports_step (invalid_imports : list str) (line : str)
    : list str :=
  if Py.startswith (lit "import") (Py.strip line) then invalid_imports
  else
    match Re.search FROM_IMPORT line with
    | Some from_import_match =>
        let from_module := Re.group1 line from_import_match in
        if Py.contains (lit "import *") line
        then invalid_imports ++ [from_module]
        else invalid_imports
    | None => invalid_imports
    end.

Definition check_invalid_imports (implementation : list str) : list str :=
  fold_left invalid_imports_step implementation [].

(** [has_file_docstring]: [tree.body[0]] is an expression statement holding
    a string. *)
Definition has_file_docstring (parsed : result tree) : result bool :=
  t <- parsed ;;
  first <- Py.index (body t) 0 ;;
  match first with
  | ExprStr => Ok true
  | _ => Ok false
  end.

(** [check_for_file_header]; the [and] evaluates its right operand only
    when the first line is not a comment. *)
Definition check_for_file_header (parsed : result tree)
    (implementation : list str) : result bool :=
  first_line <- Py.index implementation 0 ;;
  if negb (is_comment_line first_line) then
    has_docstring <- has_file_docstring parsed ;;
    if negb has_docstring then Ok false else Ok true
  else Ok true.

Definition remove_docstring (source_code : str) : str :=
  Re.sub_empty DOCSTRING source_code.

(** The [while] loop of [check_module_using_comment_header], entered with
    the line already fetched; [None] when [fuel] iterations do not end it. *)
Fixpoint comment_header_loop (fuel : nat) (implementation : list str)
    (has_comment_header : bool) (current_line_index : Z) (current_line : str)
    : option (result bool) :=
  if is_comment_line current_line then
    match fuel with
    | O => None
    | S fuel' =>
        let current_line_index := (current_line_index - 1)%Z in
        match Py.index implementation current_line_index with
        | Ok current_line =>
            comment_header_loop fuel' implementation true current_line_index
              current_line
        | Raise e => Some (Raise e)
        end
    end
  else Some (Ok has_comment_header).

(** Iterations that always suffice: the index only decreases, and below
    [-len] the lookup raises. *)
Definition header_fuel (implementation : list str) (start_line : Z) : nat :=
  S (Z.to_nat (start_line + Z.of_nat (length implementation))).

Definition check_module_using_comment_header (implementation : list str)
    (start_line : Z) : option (result bool) :=
  match Py.index implementation (start_line - 1) with
  | Ok current_line =>
      comment_header_loop (header_fuel implementation start_line)
        implementation false (start_line - 1) current_line
  | Raise e => Some (Raise e)
  end.

(** The detector as the checks call it; the loop never runs out of
    [header_fuel] (lemma [comment_header_total] below). *)
Definition comment_header (implementation : list str) (start_line : Z)
    : result bool :=
  match check_module_using_comment_header implementation start_line with
  | Some r => r
  | None => Raise IndexError
  end.

Definition class_headers_step (code_lines : list str)
    (no_header_classes : list str) (n : node) : result (list str) :=
  match n with
  | ClassDef name lineno docstring =>
      let start_line := (lineno - 1)%Z in
      let has_docstring_header := truthy docstring in
      has_comment_header <- comment_header code_lines start_line ;;
      if negb has_docstring_header && negb has_comment_header
      then Ok (no_header_classes ++ [name])
      else Ok no_header_classes
  | _ => Ok no_header_classes
  end.

Definition check_class_headers (code_lines : list str)
    (parsed : result tree) : result (list str) :=
  t <- parsed ;;
  for_each (walk t) (class_headers_step code_lines) [].

Definition functions_headers_step (code_lines : list str)
    (no_header_functions : list str) (n : node) : result (list str) :=
  match n with
  | FunctionDef name lineno _ docstring =>
      let start_line := (lineno - 1)%Z in
      def_line <- Py.index code_lines start_line ;;
      if Py.contains (lit "def __") def_line then Ok no_header_functions
      else
        let has_docstring_header := truthy docstring in
        has_comment_header <- comment_header code_lines start_line ;;
        if negb has_docstring_header && negb has_comment_header
        then Ok (no_header_functions ++ [name])
        else Ok no_header_functions
  | _ => Ok no_header_functions
  end.

Definition check_functions_headers (code_lines : list str)
    (parsed : result tree) : result (list str) :=
  t <- parsed ;;
  for_each (walk t) (functions_headers_step code_lines) [].

(** The loop over [zip(range(len - 1, -1, -1), reversed(function_code))]
    that pops comment lines while the list is traversed backwards: [i]
    indices are still to visit, and the reversed iterator stops when its
    index is outside the list. *)
Fixpoint pop_comment_lines (i : nat) (function_code : list str) : list str :=
  match i with
  | O => function_code
  | S j =>
      match nth_error function_code j with
      | Some line =>
          if is_comment_line line
          then pop_comment_lines j (Py.pop j function_code)
          else pop_comment_lines j function_code
      | None => function_code
      end
  end.

(** The text whose newlines [check_functions_less_than_40_lines] counts. *)
Definition measured_code (code_lines : list str) (lineno : Z)
    (end_lineno : option Z) : str :=
  let start_line := (lineno - 1)%Z in
  let end_line :=
    match end_lineno with Some e => e | None => start_line end in
  let function_code := Py.slice code_lines start_line end_line in
  let function_code := pop_comment_lines (length function_code) function_code in
  remove_docstring (Py.join [newline] function_code).

Definition long_functions_step (code_lines : list str)
    (long_functions : list str) (n : node) : list str :=
  match n with
  | FunctionDef name lineno end_lineno _ =>
      let function_code := measured_code code_lines lineno end_lineno in
      if 40 <? Py.count newline function_code
      then long_functions ++ [name]
      else long_functions
  | _ => long_functions
  end.

Definition check_functions_less_than_40_lines (code_lines : list str)
    (parsed : result tree) : result (list str) :=
  t <- parsed ;;
  Ok (fold_left (long_functions_step code_lines) (walk t) []).

(** The body of the loop of [check_implementation_variable_length] for the
    line of index [i]; [match.groups()] holds the one group of the
    pattern. *)
Definition variable_length_step (line_numbers : list nat) (i : nat)
    (line : str) : list nat :=
  match Re.search ASSIGNED_NAME line with
  | Some found =>
      let words := [Re.group1 line found] in
      fold_left
        (fun line_numbers word =>
           if list_eq_dec ascii_dec (Py.upper word) word then line_numbers
           else if MAX_VARIABLE_NAME_LENGTH <? length word
                then line_numbers ++ [i + 1]
                else line_numbers)
        words line_numbers
  | None => line_numbers
  end.

(** A loop over [enumerate(lines)], the index counted from [i]. *)
Fixpoint for_enumerate {St} (step : St -> nat -> str -> St) (i : nat)
    (lines : list str) (acc : St) : St :=
  match lines with
  | [] => acc
  | line :: rest => for_enumerate step (S i) rest (step acc i line)
  end.

Definition check_implementation_variable_length
    (implementation_lines : list str) : list nat :=
  for_enumerate variable_length_step 0 implementation_lines [].

Definition line_length_step (line_numbers : list nat) (i : nat) (line : str)
    : list nat :=
  if is_comment_line line then line_numbers
  else
    let line := Re.sub_empty COMMENT_SUFFIX line in
    if MAX_LINE_CHARACTERS <? length line
    then line_numbers ++ [i + 1]
    else line_numbers.

Definition check_implementation_line_length
    (implementation_lines : list str) : list nat :=
  for_enumerate line_length_step 0 implementation_lines [].

Definition check_file_too_large (implementation_lines : list str) : bool :=
  length implementation_lines <=? MAX_FILE_LINES.

(** ** The report: global dictionaries, aggregation and rendering *)

Inductive value := VBool (b : bool) | VStr (s : str).

(** A list element of a violation list: a line number or a name. *)
Inductive item := Num (n : nat) | Name (s : str).

(** [str(x)], as [format] renders an item. *)
Definition item_str (x : item) : str :=
  match x with
  | Num n => Py.str_of_int (Z.of_nat n)
  | Name s => s
  end.

(** A [dict] with string keys, in insertion order. *)
Definition dict (V : Type) := list (string * V).

Fixpoint dict_get {V} (k : string) (d : dict V) : result V :=
  match d with
  | [] => Raise KeyError
  | (k', v) :: d' => if String.eqb k k' then Ok v else dict_get k d'
  end.

Fixpoint dict_set {V} (k : string) (v : V) (d : dict V) : dict V :=
  match d with
  | [] => [(k, v)]
  | (k', v') :: d' =>
      if String.eqb k k' then (k, v) :: d' else (k', v') :: dict_set k v d'
  end.

Record globals := {
  template_variables : dict value;
  specific_file_information : dict (option (list item))
}.

Definition set_data_for_parsing : globals := {|
  template_variables := [
    ("SCRIPT_NAME", VStr [])%string;
    ("FILE_HEADER_EXISTS", VBool true)%string;
    ("EXCEPTABLE_FILE_SIZE", VBool true)%string;
    ("VALID_IMPORTS", VBool true)%string;
    ("VALID_LINE_LENGTHS", VBool true)%string;
    ("CLASSES_HAVE_HEADERS", VBool true)%string;
    ("FUNCTIONS_HAVE_HEADERS", VBool true)%string;
    ("VALID_FUNCTION_LENGTHS", VBool true)%string;
    ("VALID_VARIABLE_LENGTHS", VBool true)%string;
    ("INVALID_IMPORT_CHECKBOXES", VStr [])%string;
    ("INVALID_LINE_LENGTH_CHECKBOXES", VStr [])%string;
    ("CLASSES_WITHOUT_HEADERS_CHECKBOXES", VStr [])%string;
    ("FUNCTIONS_WITHOUT_HEADERS_CHECKBOXES", VStr [])%string;
    ("INVALID_FUNCTION_LENGTH_CHECKBOXES", VStr [])%string;
    ("INVALID_VARIABLE_LENGTH_CHECKBOXES", VStr [])%string
  ];
  specific_file_information := [
    ("INVALID_IMPORTS", None)%string;
    ("INVALID_LENGTHY_LINES", None)%string;
    ("HEADLESS_CLASSES", None)%string;
    ("HEADLESS_FUNCTIONS", None)%string;
    ("INVALID_LENGTHY_FUNCTIONS", None)%string;
    ("INVALID_LENGTHY_VARIABLES", None)%string
  ]
|}.

(** [CHECKBOX_OUTLINE.format(mark, text)] *)
Definition CHECKBOX_OUTLINE (mark text : str) : str :=
  lit " - [" ++ mark ++ lit "] " ++ text ++ [newline].

(** ["Line Number - {}".format(x)] *)
Definition line_number_string (x : item) : str :=
  lit "Line Number - " ++ item_str x.

(** [d[k] += text] *)
Definition dict_add (k : string) (text : str) (d : dict value)
    : result (dict value) :=
  old <- dict_get k d ;;
  match old with
  | VStr s => Ok (dict_set k (VStr (s ++ text)) d)
  | VBool _ => Raise TypeError
  end.

(** One of the six loops of [generate_validation_output]: over the list
    stored under [source], each item clears [flag] and adds its checkbox
    line, labelled by [label], to [checkboxes]. *)
Definition report_category (source flag checkboxes : string)
    (label : item -> str) (info : dict (option (list item)))
    (tv : dict value) : result (dict value) :=
  stored <- dict_get source info ;;
  match stored with
  | None => Raise TypeError
  | Some items =>
      for_each items
        (fun tv x =>
           let tv := dict_set flag (VBool false) tv in
           dict_add checkboxes (CHECKBOX_OUTLINE (lit " ") (label x)) tv)
        tv
  end.

Definition generate_validation_output (g : globals) : result globals :=
  let info := specific_file_information g in
  tv <- report_category "INVALID_LENGTHY_LINES" "VALID_LINE_LENGTHS"
          "INVALID_LINE_LENGTH_CHECKBOXES" line_number_string info
          (template_variables g) ;;
  tv <- report_category "INVALID_LENGTHY_VARIABLES" "VALID_VARIABLE_LENGTHS"
          "INVALID_VARIABLE_LENGTH_CHECKBOXES" line_number_string info tv ;;
  tv <- report_category "INVALID_LENGTHY_FUNCTIONS" "VALID_FUNCTION_LENGTHS"
          "INVALID_FUNCTION_LENGTH_CHECKBOXES" item_str info tv ;;
  tv <- report_category "HEADLESS_FUNCTIONS" "FUNCTIONS_HAVE_HEADERS"
          "FUNCTIONS_WITHOUT_HEADERS_CHECKBOXES" item_str info tv ;;
  tv <- report_category "HEADLESS_CLASSES" "CLASSES_HAVE_HEADERS"
          "CLASSES_WITHOUT_HEADERS_CHECKBOXES" item_str info tv ;;
  tv <- report_category "INVALID_IMPORTS" "VALID_IMPORTS"
          "INVALID_IMPORT_CHECKBOXES" item_str info tv ;;
  Ok {| template_variables := tv; specific_file_information := info |}.

Definition convert_bool_to_checkbox_value (value : bool) : str :=
  if value then lit "X" else lit " ".

(** [s.replace(old, new)] for a non-empty [old]; [skip] counts the
    characters of the current occurrence still to drop. *)
Fixpoint replace_from (old new : str) (s : str) (skip : nat) : str :=
  match s with
  | [] => []
  | c :: s' =>
      match skip with
      | S k => replace_from old new s' k
      | O =>
          if Py.startswith old s
          then new ++ replace_from old new s' (length old - 1)
          else c :: replace_from old new s' 0
      end
  end.

Definition replace (old new s : str) : str := replace_from old new s 0.

Definition placeholder (variable : string) : str :=
  lit "{{" ++ lit variable ++ lit "}}".

(** What a template variable is replaced by. *)
Definition replacement_of (v : value) : str :=
  let replacement :=
    match v with
    | VBool b => convert_bool_to_checkbox_value b
    | VStr s => s
    end in
  match replacement with
  | [] => lit "None :)"
  | _ => replacement
  end.

(** The text [write_validation_output] writes. *)
Definition fill_template (template_lines : str) (tv : dict value) : str :=
  let template_lines :=
    fold_left
      (fun template_lines '(variable, replacement) =>
         replace (placeholder variable) (replacement_of replacement)
           template_lines)
      tv template_lines in
  let template_lines :=
    replace (placeholder "MAX_FILE_LINES")
      (Py.str_of_int (Z.of_nat MAX_FILE_LINES)) template_lines in
  let template_lines :=
    replace (placeholder "MAX_LINE_CHARACTERS")
      (Py.str_of_int (Z.of_nat MAX_LINE_CHARACTERS)) template_lines in
  let template_lines :=
    replace (placeholder "MAX_VARIABLE_NAME_LENGTH")
      (Py.str_of_int (Z.of_nat MAX_VARIABLE_NAME_LENGTH)) template_lines in
  replace (placeholder "MAX_LINES_PER_METHOD")
    (Py.str_of_int (Z.of_nat MAX_LINES_PER_METHOD)) template_lines.

(** [str(v)], as [format] renders a template variable. *)
Definition value_str (v : value) : str :=
  match v with
  | VStr s => s
  | VBool b => if b then lit "True" else lit "False"
  end.

(** The files the tool touches: the template next to the script, the
    output directory and the reports in it, by file name. *)
Record disk := {
  template : option str;
  output_dir_exists : bool;
  reports : list (str * str)
}.

Fixpoint write_file (name content : str) (files : list (str * str))
    : list (str * str) :=
  match files with
  | [] => [(name, content)]
  | (name', content') :: files' =>
      if list_eq_dec ascii_dec name name' then (name, content) :: files'
      else (name', content') :: write_file name content files'
  end.

Record world := { vars : globals; files : disk }.

Definition write_validation_output (w : world) : result world :=
  match template (files w) with
  | None => Raise FileNotFoundError
  | Some template_lines =>
      let tv := template_variables (vars w) in
      let template_lines := fill_template template_lines tv in
      script_name <- dict_get "SCRIPT_NAME" tv ;;
      let output_md_file :=
        value_str script_name ++ lit "_validation_output.md" in
      Ok {| vars := vars w;
            files := {| template := template (files w);
                        output_dir_exists := true;
                        reports :=
                          write_file output_md_file template_lines
                            (reports (files w)) |} |}
  end.

(** A Python file of the scanned directory: the base name of its path, its
    text, and what [ast.parse] makes of the text. *)
Record source_file := {
  basename : str;
  text : str;
  parsed : result tree
}.

Definition set_var (k : string) (v : value) (g : globals) : globals :=
  {| template_variables := dict_set k v (template_variables g);
     specific_file_information := specific_file_information g |}.

Definition set_info (k : string) (v : list item) (g : globals) : globals :=
  {| template_variables := template_variables g;
     specific_file_information :=
       dict_set k (Some v) (specific_file_information g) |}.

Definition parse_python_file (f : source_file) (w : world) : result world :=
  let g := set_data_for_parsing in
  let lines := Py.readlines (text f) in
  let code_lines := Py.splitlines (text f) in
  if length lines =? 0 then Ok {| vars := g; files := files w |}
  else
    let g := set_var "SCRIPT_NAME" (VStr (basename f)) g in
    header <- check_for_file_header (parsed f) lines ;;
    let g := set_var "FILE_HEADER_EXISTS" (VBool header) g in
    let g := set_var "EXCEPTABLE_FILE_SIZE"
               (VBool (check_file_too_large lines)) g in
    let g := set_info "INVALID_LENGTHY_LINES"
               (map Num (check_implementation_line_length lines)) g in
    let g := set_info "INVALID_LENGTHY_VARIABLES"
               (map Num (check_implementation_variable_length lines)) g in
    long_functions <- check_functions_less_than_40_lines code_lines (parsed f) ;;
    let g := set_info "INVALID_LENGTHY_FUNCTIONS" (map Name long_functions) g in
    headless_functions <- check_functions_headers code_lines (parsed f) ;;
    let g := set_info "HEADLESS_FUNCTIONS" (map Name headless_functions) g in
    headless_classes <- check_class_headers code_lines (parsed f) ;;
    let g := set_info "HEADLESS_CLASSES" (map Name headless_classes) g in
    let g := set_info "INVALID_IMPORTS"
               (map Name (check_invalid_imports lines)) g in
    g <- generate_validation_output g ;;
    write_validation_output {| vars := g; files := files w |}.

(** [parse_directory]: the files one after the other; an exception ends the
    run. *)
Definition parse_directory (python_files : list source_file) (w : world)
    : result world :=
  for_each python_files (fun w f => parse_python_file f w) w.

(** ** Inputs used as examples *)

(** A file whose first line is a definition and whose last line is a
    comment. *)
Definition trailing_comment_file : list str :=
  [lit "def f():"; lit "    pass"; lit "# end of module"].

(** A file of blank and comment lines only: it parses to an empty body. *)
Definition comments_only_file : source_file := {|
  basename := lit "notes.py";
  text := lit "
# nothing but a comment
";
  parsed := Ok {| body := []; walk := [] |}
|}.

Definition empty_file : source_file := {|
  basename := lit "empty.py";
  text := [];
  parsed := Ok {| body := []; walk := [] |}
|}.

Definition blank_disk : disk :=
  {| template := Some (lit "{{SCRIPT_NAME}}: {{INVALID_IMPORT_CHECKBOXES}}");
     output_dir_exists := false;
     reports := [] |}.

Definition blank_world : world :=
  {| vars := set_data_for_parsing; files := blank_disk |}.

(** ** Definitions used by the statements *)

(** Length of the longest prefix of [s] whose characters satisfy [p]. *)
Fixpoint run (p : ascii -> bool) (s : str) : nat :=
  match s with
  | c :: s' => if p c then S (run p s') else 0
  | [] => 0
  end.

(** What [re.sub(r'#.*', '', s)] keeps, read off the text: outside a
    comment everything up to a [#], inside one nothing up to the end of the
    line. *)
Fixpoint without_comments (in_comment : bool) (s : str) : str :=
  match s with
  | [] => []
  | c :: s' =>
      if in_comment then
        if Ascii.eqb c newline then c :: without_comments false s'
        else without_comments true s'
      else if Ascii.eqb c "#"%char then without_comments true s'
      else c :: without_comments false s'
  end.

(** What the line of index [i] adds to the list of long lines. *)
Definition line_length_entry (i : nat) (line : str) : list nat :=
  line_length_step [] i line.

(** The character before the position reached after reading [a]. *)
Fixpoint last_of (prev : option ascii) (a : str) : option ascii :=
  match a with
  | [] => prev
  | c :: a' => last_of (Some c) a'
  end.

(** What one line adds to the list of wildcard imports. *)
Definition invalid_imports_entry (line : str) : list str :=
  invalid_imports_step [] line.

(** The line starts, after stripping, with the word [import]. *)
Definition plain_import (line : str) : bool :=
  Py.startswith (lit "import") (Py.strip line).

(** The line holds [from], a blank, the text [module] free of newlines, a
    blank, [import] and a blank. *)
Definition from_import_form (line module : str) : Prop :=
  exists pre w1 w2 w3 post,
    line = pre ++ lit "from" ++ w1 :: module ++
           w2 :: lit "import" ++ w3 :: post /\
    Py.isspace w1 = true /\ Py.isspace w2 = true /\ Py.isspace w3 = true /\
    forallb Re.dot module = true.

(** What the line of index [i] adds to the list of long variable names. *)
Definition variable_length_entry (i : nat) (line : str) : list nat :=
  variable_length_step [] i line.

(** [word] stands in [line] after [pre], is a run of word characters that
    no word character precedes, and is followed by the blanks [ws] and the
    sign [=]. *)
Definition assigned_name_form (line pre word ws post : str) : Prop :=
  line = pre ++ word ++ ws ++ "="%char :: post /\
  word <> [] /\
  forallb Py.isword word = true /\
  forallb Py.isspace ws = true /\
  Re.word_before (last_of None pre) = false.

Definition assignment_lines : list str :=
  [lit "x = 1; a_name_that_is_much_longer_than_allowed = 0";
   lit "a_name_that_is_much_longer_than_allowed = compute(x)";
   lit "A_CONSTANT_NAME_THAT_IS_MUCH_LONGER_THAN_ALLOWED_1 = 3"].



(** Number of newline-separated lines of a text. *)
Definition line_count (text : str) : nat := S (Py.count newline text).






(** The lines of a span that are not comment lines. *)
Definition code_of (span : list str) : list str :=
  filter (fun line => negb (is_comment_line line)) span.

(** What a node adds to the list of long functions. *)
Definition long_functions_entry (code_lines : list str) (n : node)
    : list str :=
  long_functions_step code_lines [] n.


(** A function of 41 lines, none of them a comment or a docstring. *)
Definition function_of_41_lines : list str :=
  lit "def g():" :: repeat (lit "    x = 1") 40.



(** The reserved convention: the name starts and ends with two
    underscores. *)
Definition reserved_name (name : str) : bool :=
  Py.startswith (lit "__") name && Py.startswith (lit "__") (rev name).

(** A class whose method [__init__] is 45 lines long: the class stands on
    line 1, the method on lines 2 to 46. *)
Definition long_init : list str :=
  lit "class A:" :: lit "    def __init__(self):" ::
  repeat (lit "        self.x = 1") 44.

(** [ast.walk] yields the module, the class, the method, and then the 266
    nodes below the method. *)
Definition long_init_tree : tree :=
  {| body := [ClassDef (lit "A") 1 None];
     walk := OtherNode :: ClassDef (lit "A") 1 None ::
             FunctionDef (lit "__init__") 2 (Some 46%Z) None ::
             repeat OtherNode 266 |}.

(** A class whose method [__init__] is written with two blanks after
    [def]. *)
Definition spaced_init : list str :=
  [lit "class B:"; lit "    def  __init__(self):"; lit "        pass"].

Definition spaced_init_tree : tree :=
  {| body := [ClassDef (lit "B") 1 None];
     walk := [OtherNode; ClassDef (lit "B") 1 None;
              FunctionDef (lit "__init__") 2 (Some 3%Z) None;
              OtherNode; OtherNode; OtherNode] |}.

(** A category of violations: the key of its list, its flag, its checkbox
    string and the label of one item. *)
Record category := {
  source : string;
  flag : string;
  checkboxes : string;
  label : item -> str
}.

(** The six categories, in the order of [generate_validation_output]. *)
Definition categories : list category := [
  {| source := "INVALID_LENGTHY_LINES"; flag := "VALID_LINE_LENGTHS";
     checkboxes := "INVALID_LINE_LENGTH_CHECKBOXES";
     label := line_number_string |};
  {| source := "INVALID_LENGTHY_VARIABLES"; flag := "VALID_VARIABLE_LENGTHS";
     checkboxes := "INVALID_VARIABLE_LENGTH_CHECKBOXES";
     label := line_number_string |};
  {| source := "INVALID_LENGTHY_FUNCTIONS"; flag := "VALID_FUNCTION_LENGTHS";
     checkboxes := "INVALID_FUNCTION_LENGTH_CHECKBOXES";
     label := item_str |};
  {| source := "HEADLESS_FUNCTIONS"; flag := "FUNCTIONS_HAVE_HEADERS";
     checkboxes := "FUNCTIONS_WITHOUT_HEADERS_CHECKBOXES";
     label := item_str |};
  {| source := "HEADLESS_CLASSES"; flag := "CLASSES_HAVE_HEADERS";
     checkboxes := "CLASSES_WITHOUT_HEADERS_CHECKBOXES";
     label := item_str |};
  {| source := "INVALID_IMPORTS"; flag := "VALID_IMPORTS";
     checkboxes := "INVALID_IMPORT_CHECKBOXES";
     label := item_str |}
]%string.

Definition keys (c : category) : list string := [flag c; checkboxes c].

Definition report (info : dict (option (list item))) (tv : dict value)
    (c : category) : result (dict value) :=
  report_category (source c) (flag c) (checkboxes c) (label c) info tv.

(** One unchecked checkbox line per item, in the order of the list. *)
Definition checkbox_lines (label : item -> str) (items : list item) : str :=
  flat_map (fun x => CHECKBOX_OUTLINE (lit " ") (label x)) items.

Definition is_nil {A} (l : list A) : bool :=
  match l with [] => true | _ => false end.

(** An unchecked checkbox line, as the report shows it. *)
Definition unchecked_box (text : str) : str :=
  lit " - [ ] " ++ text ++ [newline].

(** The two categories whose items are line numbers. *)
Definition line_numbered (c : category) : bool :=
  String.eqb (source c) "INVALID_LENGTHY_LINES" ||
  String.eqb (source c) "INVALID_LENGTHY_VARIABLES".

(** The text an item is shown with: a line number after the words
    [Line Number - ], a name as it is. *)
Definition shown (c : category) (x : item) : str :=
  if line_numbered c then lit "Line Number - " ++ item_str x else item_str x.

(** The violation lists of a file with two long lines, one long function
    and one wildcard import. *)
Definition sample_globals : globals :=
  set_info "INVALID_IMPORTS" [Name (lit "os")]
    (set_info "HEADLESS_CLASSES" []
       (set_info "HEADLESS_FUNCTIONS" []
          (set_info "INVALID_LENGTHY_FUNCTIONS" [Name (lit "parse")]
             (set_info "INVALID_LENGTHY_VARIABLES" []
                (set_info "INVALID_LENGTHY_LINES" [Num 3; Num 17]
                   (set_var "SCRIPT_NAME" (VStr (lit "tool.py"))
                      set_data_for_parsing)))))).

(** Two classes: one under a comment line, one under a blank line. *)
Definition two_classes : list str :=
  [lit "# Represents X"; lit "class A:"; lit "    pass"; lit "";
   lit "class B:"; lit "    pass"].

Definition two_classes_tree : tree :=
  {| body := [OtherNode; OtherNode];
     walk := [OtherNode; ClassDef (lit "A") 2 None;
              ClassDef (lit "B") 5 None; OtherNode; OtherNode] |}.

(** Three functions: a plain one without header, one with a reserved
    name, one under a comment line. *)
Definition three_functions : list str :=
  [lit "def plain():"; lit "    pass"; lit "def __str__(self):";
   lit "    pass"; lit "# says hello"; lit "def hello():"; lit "    pass"].

Definition three_functions_tree : tree :=
  {| body := [OtherNode; OtherNode; OtherNode];
     walk := [OtherNode; FunctionDef (lit "plain") 1 (Some 2%Z) None;
              FunctionDef (lit "__str__") 3 (Some 4%Z) None;
              FunctionDef (lit "hello") 6 (Some 7%Z) None] |}.

(** Three double quotes. *)
Definition q3 : str := [quote; quote; quote].

(** The text starts with three double quotes. *)
Definition starts3 (s : str) : bool :=
  match s with
  | a :: b :: c :: _ =>
      Ascii.eqb a quote && Ascii.eqb b quote && Ascii.eqb c quote
  | _ => false
  end.

(** Offset of the first triple quote of a text. *)
Fixpoint find3 (s : str) : option nat :=
  match s with
  | [] => None
  | _ :: s' => if starts3 s then Some 0 else option_map S (find3 s')
  end.

(** Length of the triple-quoted block that starts a text. *)
Definition docstring_length (s : str) : option nat :=
  if starts3 s then option_map (fun n => n + 6) (find3 (skipn 3 s))
  else None.

(** A function with a docstring of three lines. *)
Definition documented_function : str :=
  lit "def f():
    " ++ q3 ++ lit "Adds.
    Twice.
    " ++ q3 ++ lit "
    return 1".


(** The report stored under a name, if any. *)
Fixpoint read_file (name : str) (files : list (str * str)) : option str :=
  match files with
  | [] => None
  | (name', content) :: files' =>
      if list_eq_dec ascii_dec name name' then Some content
      else read_file name files'
  end.

(** The name of the report of a script. *)
Definition report_name (script_name : str) : str :=
  script_name ++ lit "_validation_output.md".

(** A file whose first line has 150 characters before its terminator. *)
Definition boundary_file : source_file := {|
  basename := lit "wide.py";
  text := repeat "a"%char 150 ++ [newline] ++ lit "x = 1" ++ [newline];
  parsed := Ok {| body := [OtherNode; OtherNode];
                  walk := repeat OtherNode 8 |}
|}.

(** Two files of different directories with the same base name. *)
Definition first_tool : source_file := {|
  basename := lit "tool.py";
  text := lit "from os import *
";
  parsed := Ok {| body := [OtherNode]; walk := [OtherNode] |}
|}.

Definition second_tool : source_file := {|
  basename := lit "tool.py";
  text := lit "# a tool
import os
";
  parsed := Ok {| body := [OtherNode]; walk := [OtherNode] |}
|}.

(** * Properties *)

(** ** Strings *)

Lemma lstrip_snoc (a : str) (c : ascii) :
  Py.isspace c = false ->
  exists a', Py.lstrip (a ++ [c]) = a' ++ [c].
Proof.
  intros Hc. induction a as [|x a IH]; simpl.
  - rewrite Hc. now exists [].
  - destruct (Py.isspace x).
    + exact IH.
    + now exists (x :: a).
Qed.

Lemma lstrip_head (s : str) (c : ascii) (t : str) :
  Py.lstrip s = c :: t -> Py.isspace c = false.
Proof.
  induction s as [|x s IH]; simpl; [discriminate|].
  destruct (Py.isspace x) eqn:Hx; [exact IH|].
  intros H. injection H as <- _. exact Hx.
Qed.

(** Stripping the right end does not change how a line starts: the test
    of [is_comment_line] looks at the line after its leading whitespace. *)
Lemma is_comment_line_lstrip (line : str) :
  is_comment_line line = Py.startswith (lit "#") (Py.lstrip line).
Proof.
  unfold is_comment_line, Py.strip, Py.rstrip.
  destruct (Py.lstrip line) as [|c t] eqn:E; [reflexivity|].
  pose proof (lstrip_head _ _ _ E) as Hc.
  simpl rev.
  destruct (lstrip_snoc (rev t) c Hc) as [a' Ha']. rewrite Ha'.
  rewrite rev_app_distr. reflexivity.
Qed.

Lemma readlines_from_nil (cur s : str) :
  Py.readlines_from cur s = [] -> cur = [] /\ s = [].
Proof.
  revert cur. induction s as [|c s IH]; intros cur; simpl.
  - destruct cur; [auto|discriminate].
  - destruct (Ascii.eqb c newline); [discriminate|].
    intros H. apply IH in H. destruct H; discriminate.
Qed.

(** A file has zero lines exactly when its text is empty. *)
Lemma readlines_nil_iff (text : str) :
  Py.readlines text = [] <-> text = [].
Proof.
  split.
  - intros H. now apply readlines_from_nil in H.
  - intros ->. reflexivity.
Qed.

(** ** Loops over the lines *)

Section Enumerate.

Variable step : list nat -> nat -> str -> list nat.
Variable entry : nat -> str -> list nat.
Hypothesis step_appends :
  forall acc i line, step acc i line = acc ++ entry i line.

Lemma for_enumerate_entries (lines : list str) :
  forall k acc,
    for_enumerate step k lines acc =
    acc ++ for_enumerate step k lines [].
Proof.
  induction lines as [|line rest IH]; intros k acc; simpl.
  - now rewrite app_nil_r.
  - rewrite (IH (S k) (step acc k line)), (IH (S k) (step [] k line)).
    rewrite !step_appends. simpl. now rewrite app_assoc.
Qed.

Lemma for_enumerate_In (lines : list str) :
  forall k n,
    In n (for_enumerate step k lines []) <->
    exists j line, nth_error lines j = Some line /\ In n (entry (k + j) line).
Proof.
  induction lines as [|line rest IH]; intros k n; simpl.
  - split; [intros []|]. intros (j & l & H & _). now destruct j.
  - rewrite for_enumerate_entries, step_appends. simpl.
    rewrite in_app_iff, IH. split.
    + intros [H|(j & l & Hj & H)].
      * exists 0, line. rewrite Nat.add_0_r. auto.
      * exists (S j), l. rewrite Nat.add_succ_r. auto.
    + intros (j & l & Hj & H). destruct j as [|j]; simpl in Hj.
      * injection Hj as ->. rewrite Nat.add_0_r in H. auto.
      * right. exists j, l. rewrite Nat.add_succ_r in H. auto.
Qed.

Hypothesis entry_own_number :
  forall i line, entry i line = [] \/ entry i line = [i + 1].

Lemma for_enumerate_above (lines : list str) :
  forall k n, In n (for_enumerate step k lines []) -> k < n.
Proof.
  intros k n H. apply for_enumerate_In in H.
  destruct H as (j & l & _ & H).
  destruct (entry_own_number (k + j) l) as [E|E]; rewrite E in H.
  - destruct H.
  - destruct H as [<-|[]]. lia.
Qed.

(** No line number is recorded twice. *)
Lemma for_enumerate_NoDup (lines : list str) :
  forall k, NoDup (for_enumerate step k lines []).
Proof.
  induction lines as [|line rest IH]; intros k; simpl.
  - constructor.
  - rewrite for_enumerate_entries, step_appends. simpl.
    destruct (entry_own_number k line) as [E|E]; rewrite E; simpl.
    + apply IH.
    + constructor; [|apply IH].
      intros H. apply for_enumerate_above in H. lia.
Qed.

(** The number of line [i] is recorded exactly when its own entry is
    not empty. *)
Lemma for_enumerate_line (lines : list str) (i : nat) (line : str) :
  nth_error lines i = Some line ->
  (In (i + 1) (for_enumerate step 0 lines []) <-> entry i line = [i + 1]).
Proof.
  intros Hi. rewrite for_enumerate_In. split.
  - intros (j & l & Hj & H). simpl in H.
    destruct (entry_own_number j l) as [E|E]; rewrite E in H; [destruct H|].
    destruct H as [H|[]]. assert (j = i) by lia. subst j.
    rewrite Hi in Hj. injection Hj as <-. exact E.
  - intros E. exists i, line. simpl. rewrite E. simpl. auto.
Qed.

End Enumerate.

(** ** The pattern of comment suffixes *)

(** A greedy repetition that ends the pattern takes the whole run. *)
Lemma greedy_last (p : ascii -> bool) (g : nat * nat) (k : Re.cont)
    (s : str) :
  (forall prev s pos, k prev s pos = Some (g, pos)) ->
  forall prev pos, Re.greedy p k prev s pos = Some (g, pos + run p s).
Proof.
  intros Hk. induction s as [|c s IH]; intros prev pos; simpl.
  - now rewrite Hk, Nat.add_0_r.
  - destruct (p c).
    + rewrite IH. f_equal. f_equal. lia.
    + now rewrite Hk, Nat.add_0_r.
Qed.

Lemma m_comment_suffix (g : nat * nat) (prev : option ascii) (s : str)
    (pos : nat) :
  Re.m COMMENT_SUFFIX g prev s pos =
  match s with
  | c :: s' =>
      if Ascii.eqb c "#"%char then Some (g, S pos + run Re.dot s') else None
  | [] => None
  end.
Proof.
  destruct s as [|c s]; [reflexivity|].
  unfold COMMENT_SUFFIX. simpl.
  destruct (Ascii.eqb c "#"); [|reflexivity].
  apply greedy_last. reflexivity.
Qed.

Lemma sub_comment_suffix (s : str) :
  forall prev pos,
    Re.sub_from COMMENT_SUFFIX prev s pos 0 = without_comments false s /\
    Re.sub_from COMMENT_SUFFIX prev s pos (run Re.dot s) =
      without_comments true s.
Proof.
  induction s as [|c s IH]; intros prev pos; [split; reflexivity|].
  assert (Hout : Re.sub_from COMMENT_SUFFIX prev (c :: s) pos 0 =
                 without_comments false (c :: s)).
  { cbn [Re.sub_from]. rewrite m_comment_suffix.
    cbn [without_comments]. destruct (Ascii.eqb c "#") eqn:Hc.
    - replace (pos <? S pos + run Re.dot s) with true
        by (symmetry; apply Nat.ltb_lt; lia).
      replace (S pos + run Re.dot s - pos - 1) with (run Re.dot s) by lia.
      apply IH.
    - f_equal. apply IH. }
  split; [exact Hout|].
  simpl run. unfold Re.dot at 1.
  destruct (Ascii.eqb c newline) eqn:Hn; simpl negb; cbv iota.
  - rewrite Hout. simpl. rewrite Hn.
    apply Ascii.eqb_eq in Hn. subst c. reflexivity.
  - simpl. rewrite Hn. apply IH.
Qed.

Lemma sub_empty_comment_suffix (s : str) :
  Re.sub_empty COMMENT_SUFFIX s = without_comments false s.
Proof. apply sub_comment_suffix. Qed.

Lemma without_comments_no_hash (s : str) :
  ~ In "#"%char s -> without_comments false s = s.
Proof.
  induction s as [|c s IH]; intros H; simpl; [reflexivity|].
  destruct (Ascii.eqb c "#") eqn:Hc.
  - apply Ascii.eqb_eq in Hc. subst c. exfalso. apply H. now left.
  - f_equal. apply IH. intros Hin. apply H. now right.
Qed.

Lemma without_comments_inside (post : str) :
  ~ In newline post -> without_comments true post = [].
Proof.
  induction post as [|c post IH]; intros H; simpl; [reflexivity|].
  destruct (Ascii.eqb c newline) eqn:Hc.
  - apply Ascii.eqb_eq in Hc. subst c. exfalso. apply H. now left.
  - apply IH. intros Hin. apply H. now right.
Qed.

(** On a line [pre # post] the comment is the suffix from the first [#]. *)
Lemma without_comments_suffix (pre post : str) :
  ~ In "#"%char pre -> ~ In newline post ->
  without_comments false (pre ++ "#"%char :: post) = pre.
Proof.
  intros Hpre Hpost. induction pre as [|c pre IH]; simpl.
  - now apply without_comments_inside.
  - destruct (Ascii.eqb c "#") eqn:Hc.
    + apply Ascii.eqb_eq in Hc. subst c. exfalso. apply Hpre. now left.
    + f_equal. apply IH. intros Hin. apply Hpre. now right.
Qed.

(** The same line with its terminator, as [readlines] returns it: the
    terminator stays and is counted. *)
Lemma without_comments_suffix_newline (pre post : str) :
  ~ In "#"%char pre -> ~ In newline post ->
  without_comments false (pre ++ "#"%char :: post ++ [newline]) =
  pre ++ [newline].
Proof.
  intros Hpre Hpost. induction pre as [|c pre IH]; simpl.
  - clear Hpre. induction post as [|c post IH]; simpl; [reflexivity|].
    destruct (Ascii.eqb c newline) eqn:Hc.
    + apply Ascii.eqb_eq in Hc. subst c. exfalso. apply Hpost. now left.
    + apply IH. intros Hin. apply Hpost. now right.
  - destruct (Ascii.eqb c "#") eqn:Hc.
    + apply Ascii.eqb_eq in Hc. subst c. exfalso. apply Hpre. now left.
    + f_equal. apply IH. intros Hin. apply Hpre. now right.
Qed.

(** ** Line length *)

Lemma line_length_step_appends (acc : list nat) (i : nat) (line : str) :
  line_length_step acc i line = acc ++ line_length_entry i line.
Proof.
  unfold line_length_entry, line_length_step.
  destruct (is_comment_line line); [now rewrite app_nil_r|].
  destruct (_ <? _); [reflexivity|now rewrite app_nil_r].
Qed.

Lemma line_length_entry_own (i : nat) (line : str) :
  line_length_entry i line = [] \/ line_length_entry i line = [i + 1].
Proof.
  unfold line_length_entry, line_length_step.
  destruct (is_comment_line line); [now left|].
  destruct (_ <? _); [now right|now left].
Qed.

Lemma line_length_flagged (lines : list str) (i : nat) (line : str) :
  nth_error lines i = Some line ->
  (In (i + 1) (check_implementation_line_length lines) <->
   is_comment_line line = false /\
   MAX_LINE_CHARACTERS < length (Re.sub_empty COMMENT_SUFFIX line)).
Proof.
  intros Hi. unfold check_implementation_line_length.
  rewrite (for_enumerate_line _ _ line_length_step_appends
             line_length_entry_own lines i line Hi).
  unfold line_length_entry, line_length_step.
  destruct (is_comment_line line).
  - split; [discriminate|]. intros [H _]. discriminate.
  - destruct (_ <? _) eqn:E.
    + apply Nat.ltb_lt in E. tauto.
    + apply Nat.ltb_ge in E. simpl. split; [discriminate|].
      intros [_ H]. lia.
Qed.

(** Every line number is in the list at most once. *)
Lemma line_length_NoDup (lines : list str) :
  NoDup (check_implementation_line_length lines).
Proof.
  apply (for_enumerate_NoDup _ _ line_length_step_appends line_length_entry_own).
Qed.

(** On the list element as the check receives it: an element that is not
    a comment line is recorded, under its 1-indexed number, exactly when
    what is left of it after the comment suffix introduced by [#] is
    removed has more than 150 characters, a terminator included. *)
Lemma line_length_flags_over_150 (lines : list str) (i : nat) (line : str) :
  nth_error lines i = Some line ->
  is_comment_line line = false ->
  (In (i + 1) (check_implementation_line_length lines) <->
   150 < length (Re.sub_empty COMMENT_SUFFIX line)) /\
  (forall pre post,
     line = pre ++ "#"%char :: post ->
     ~ In "#"%char pre -> ~ In newline post ->
     (In (i + 1) (check_implementation_line_length lines) <->
      150 < length pre)) /\
  (~ In "#"%char line -> length line = 151 ->
   In (i + 1) (check_implementation_line_length lines)) /\
  (~ In "#"%char line -> length line = 150 ->
   ~ In (i + 1) (check_implementation_line_length lines)).
Proof.
  intros Hi Hc.
  pose proof (line_length_flagged lines i line Hi) as H.
  unfold MAX_LINE_CHARACTERS in H.
  rewrite sub_empty_comment_suffix in *.
  repeat split.
  - intros Hin. now apply H.
  - intros Hlen. apply H. auto.
  - intros Hin. apply H in Hin. destruct Hin as [_ Hin].
    subst line. now rewrite without_comments_suffix in Hin.
  - intros Hlen. apply H. split; [exact Hc|].
    subst line. now rewrite without_comments_suffix.
  - intros Hno Hlen. apply H. split; [exact Hc|].
    rewrite without_comments_no_hash by exact Hno. lia.
  - intros Hno Hlen Hin. apply H in Hin. destruct Hin as [_ Hin].
    rewrite without_comments_no_hash in Hin by exact Hno. lia.
Qed.

(** In a file, a line of 150 characters followed by its terminator is a
    raw line of 151 characters: [readlines] keeps the terminator, and the
    check counts it. *)
Lemma terminated_line_counts_its_newline :
  check_implementation_line_length
    (Py.readlines
       (repeat "a"%char 150 ++ [newline] ++ repeat "a"%char 150)) = [1].
Proof. vm_compute. reflexivity. Qed.

(** C7.  A line that is a comment in its entirety (its text after the
    leading whitespace begins with [#]) is never in the list of long lines,
    whatever its length. *)
Theorem comment_line_never_long (lines : list str) (i : nat) (line : str) :
  nth_error lines i = Some line ->
  Py.startswith (lit "#") (Py.lstrip line) = true ->
  ~ In (i + 1) (check_implementation_line_length lines).
Proof.
  intros Hi Hc Hin. apply (line_length_flagged lines i line Hi) in Hin.
  rewrite is_comment_line_lstrip in Hin. destruct Hin as [Hin _].
  congruence.
Qed.

Lemma comment_line_never_long_witness :
  ~ In 1 (check_implementation_line_length
            [lit "   # " ++ repeat "c"%char 300; repeat "a"%char 151]).
Proof.
  apply (comment_line_never_long _ 0 (lit "   # " ++ repeat "c"%char 300));
    reflexivity.
Defined.

(** ** The header-comment detector *)

Lemma index_Ok_bounds {A} (l : list A) (i : Z) (a : A) :
  Py.index l i = Ok a ->
  (- Z.of_nat (length l) <= i < Z.of_nat (length l))%Z.
Proof.
  unfold Py.index.
  destruct (i <? 0)%Z eqn:Hi;
    destruct ((_ <? 0)%Z || (_ <=? _)%Z) eqn:Hb; try discriminate;
    intros _; apply orb_false_elim in Hb; destruct Hb as [H1 H2];
    apply Z.ltb_ge in H1; apply Z.leb_gt in H2;
    [apply Z.ltb_lt in Hi | apply Z.ltb_ge in Hi]; lia.
Qed.

Lemma index_head {A} (a : A) (l : list A) : Py.index (a :: l) 0 = Ok a.
Proof. reflexivity. Qed.

Lemma comment_header_loop_total (fuel : nat) :
  forall implementation has idx line,
    Py.index implementation idx = Ok line ->
    (idx + Z.of_nat (length implementation) < Z.of_nat fuel)%Z ->
    comment_header_loop fuel implementation has idx line <> None.
Proof.
  induction fuel as [|fuel IH]; intros implementation has idx line Hl Hf; simpl.
  - apply index_Ok_bounds in Hl. lia.
  - destruct (is_comment_line line); [|discriminate].
    destruct (Py.index implementation (idx - 1)) eqn:E; [|discriminate].
    apply IH; [exact E|lia].
Qed.

(** The loop of the detector always ends within [header_fuel] iterations:
    the detector returns a boolean or raises. *)
Lemma comment_header_total (implementation : list str) (start_line : Z) :
  check_module_using_comment_header implementation start_line <> None.
Proof.
  unfold check_module_using_comment_header.
  destruct (Py.index implementation (start_line - 1)) eqn:E; [|discriminate].
  apply comment_header_loop_total; [exact E|].
  apply index_Ok_bounds in E. unfold header_fuel. lia.
Qed.

(** With [start_line = 0] the line read is [implementation[-1]], the last
    line of the file: a last line that is not a comment gives [False]. *)
Lemma first_line_definition_plain_end (implementation : list str)
    (last_line : str) :
  Py.index implementation (-1) = Ok last_line ->
  is_comment_line last_line = false ->
  check_module_using_comment_header implementation 0 = Some (Ok false).
Proof.
  intros Hl Hc. unfold check_module_using_comment_header.
  change (0 - 1)%Z with (-1)%Z. rewrite Hl.
  unfold header_fuel. simpl. now rewrite Hc.
Qed.

(** C1.  For a definition on the first line ([start_line = 0]) of a file
    that ends with a comment line, the detector reads the last line of the
    file and reports a header. *)
Theorem first_line_definition_reads_last_line :
  Py.index trailing_comment_file (0 - 1) = Ok (lit "# end of module") /\
  check_module_using_comment_header trailing_comment_file 0 = Some (Ok true).
Proof. split; reflexivity. Qed.

(** ** The file header *)

(** C10.  When the module body is empty and the first line of the file is
    not a comment, the file-header check raises [IndexError]. *)
Theorem file_header_check_raises_on_empty_body (t : tree) (first_line : str)
    (rest : list str) :
  body t = [] ->
  is_comment_line first_line = false ->
  check_for_file_header (Ok t) (first_line :: rest) = Raise IndexError.
Proof.
  intros Hb Hc. unfold check_for_file_header.
  rewrite index_head. simpl. rewrite Hc. simpl.
  unfold has_file_docstring. simpl. now rewrite Hb.
Qed.

Lemma file_header_check_raises_on_empty_body_witness :
  check_for_file_header (parsed comments_only_file)
    (Py.readlines (text comments_only_file)) = Raise IndexError.
Proof.
  exact (file_header_check_raises_on_empty_body
           {| body := []; walk := [] |} [newline]
           [lit "# nothing but a comment
"] eq_refl eq_refl).
Defined.

(** ** The driver *)

(** C9.  A file with zero lines is skipped: the run of the file returns
    with the report variables as [set_data_for_parsing] leaves them, no
    check result stored, and the template, the output directory and the
    reports untouched, whatever the parser or the disk would have done. *)
Theorem zero_line_file_is_skipped (f : source_file) (w : world) :
  length (Py.readlines (text f)) = 0 ->
  parse_python_file f w =
    Ok {| vars := set_data_for_parsing; files := files w |} /\
  (forall k v, dict_get k (specific_file_information set_data_for_parsing)
               = Ok v -> v = None).
Proof.
  intros H. split.
  - unfold parse_python_file. now rewrite H.
  - intros k v. simpl.
    repeat (destruct (String.eqb k _); [intros E; now injection E|]).
    discriminate.
Qed.

Lemma zero_line_file_is_skipped_witness :
  parse_python_file empty_file blank_world =
    Ok {| vars := set_data_for_parsing; files := blank_disk |}.
Proof.
  exact (proj1 (zero_line_file_is_skipped empty_file blank_world eq_refl)).
Defined.

(** ** Backtracking: what a successful match looks like *)

Lemma m_chr (c : ascii) (r : Re.pattern) g prev s pos f :
  Re.m (Re.Chr c :: r) g prev s pos = Some f ->
  exists s', s = c :: s' /\ Re.m r g (Some c) s' (S pos) = Some f.
Proof.
  destruct s as [|x s]; simpl; [discriminate|].
  destruct (Ascii.eqb x c) eqn:E; [|discriminate].
  apply Ascii.eqb_eq in E. subst x. intros H. now exists s.
Qed.

Lemma m_cls (p : ascii -> bool) (r : Re.pattern) g prev s pos f :
  Re.m (Re.Cls p :: r) g prev s pos = Some f ->
  exists x s', s = x :: s' /\ p x = true /\
               Re.m r g (Some x) s' (S pos) = Some f.
Proof.
  destruct s as [|x s]; simpl; [discriminate|].
  destruct (p x) eqn:E; [|discriminate].
  intros H. now exists x, s.
Qed.

Lemma m_chr_hit (c : ascii) (r : Re.pattern) g prev s pos :
  Re.m (Re.Chr c :: r) g prev (c :: s) pos = Re.m r g (Some c) s (S pos).
Proof. simpl. now rewrite Ascii.eqb_refl. Qed.

Lemma m_cls_hit (p : ascii -> bool) (r : Re.pattern) g prev x s pos :
  p x = true ->
  Re.m (Re.Cls p :: r) g prev (x :: s) pos = Re.m r g (Some x) s (S pos).
Proof. intros H. simpl. now rewrite H. Qed.

Lemma m_star (p : ascii -> bool) (r : Re.pattern) g prev s pos :
  Re.m (Re.Star p :: r) g prev s pos = Re.greedy p (Re.m r g) prev s pos.
Proof. reflexivity. Qed.

Lemma m_gopen (r : Re.pattern) g prev s pos :
  Re.m (Re.GOpen :: r) g prev s pos = Re.m r (pos, snd g) prev s pos.
Proof. reflexivity. Qed.

Lemma m_gclose (r : Re.pattern) g prev s pos :
  Re.m (Re.GClose :: r) g prev s pos = Re.m r (fst g, pos) prev s pos.
Proof. reflexivity. Qed.

(** A greedy repetition that succeeds has read some run [a] of the class
    and the rest of the pattern matches what follows. *)
Lemma greedy_sound (p : ascii -> bool) (k : Re.cont) (s : str) :
  forall prev pos r,
    Re.greedy p k prev s pos = Some r ->
    exists a b, s = a ++ b /\ forallb p a = true /\
                k (last_of prev a) b (pos + length a) = Some r.
Proof.
  induction s as [|c s IH]; intros prev pos r H; simpl in H.
  - exists [], []. simpl. rewrite Nat.add_0_r. auto.
  - destruct (p c) eqn:Hp.
    + destruct (Re.greedy p k (Some c) s (S pos)) eqn:E.
      * injection H as <-. apply IH in E.
        destruct E as (a & b & -> & Ha & Hk).
        exists (c :: a), b. simpl. rewrite Hp, Ha, Nat.add_succ_r. auto.
      * exists [], (c :: s). simpl. rewrite Nat.add_0_r. auto.
    + exists [], (c :: s). simpl. rewrite Nat.add_0_r. auto.
Qed.

Lemma greedy_keeps (p : ascii -> bool) (k : Re.cont) (s : str) prev pos :
  k prev s pos <> None -> Re.greedy p k prev s pos <> None.
Proof.
  destruct s as [|c s]; simpl; auto.
  destruct (p c); auto.
  destruct (Re.greedy p k (Some c) s (S pos)); [discriminate|auto].
Qed.

(** If the rest of the pattern matches after some run of the class, the
    repetition succeeds (possibly after a longer run). *)
Lemma greedy_complete (p : ascii -> bool) (k : Re.cont) (a : str) :
  forall b prev pos,
    forallb p a = true ->
    k (last_of prev a) b (pos + length a) <> None ->
    Re.greedy p k prev (a ++ b) pos <> None.
Proof.
  induction a as [|c a IH]; intros b prev pos Ha Hk; simpl in *.
  - rewrite Nat.add_0_r in Hk. now apply greedy_keeps.
  - apply andb_true_iff in Ha. destruct Ha as [Hc Ha]. rewrite Hc.
    destruct (Re.greedy p k (Some c) (a ++ b) (S pos)) eqn:E; [discriminate|].
    exfalso. rewrite Nat.add_succ_r in Hk.
    now apply (IH b (Some c) (S pos) Ha Hk).
Qed.

(** [search] returns the leftmost match: the pattern matches where the
    result starts and at no earlier position. *)
Lemma search_from_sound (r : Re.pattern) (s : str) :
  forall prev pos st f,
    Re.search_from r prev s pos = Some (st, f) ->
    exists a b,
      s = a ++ b /\ st = pos + length a /\
      Re.m r (0, 0) (last_of prev a) b st = Some f /\
      (forall a1 a2, a = a1 ++ a2 -> a2 <> [] ->
         Re.m r (0, 0) (last_of prev a1) (a2 ++ b) (pos + length a1) = None).
Proof.
  induction s as [|c s IH]; intros prev pos st f H; simpl in H.
  - destruct (Re.m r (0, 0) prev [] pos) eqn:E; [|discriminate].
    injection H as <- <-. exists [], []. simpl. rewrite Nat.add_0_r.
    repeat split; auto.
    intros a1 a2 Ha Hne. symmetry in Ha. apply app_eq_nil in Ha.
    destruct Ha. contradiction.
  - destruct (Re.m r (0, 0) prev (c :: s) pos) eqn:E.
    + injection H as <- <-. exists [], (c :: s). simpl. rewrite Nat.add_0_r.
      repeat split; auto.
      intros a1 a2 Ha Hne. symmetry in Ha. apply app_eq_nil in Ha.
      destruct Ha. contradiction.
    + apply IH in H. destruct H as (a & b & -> & -> & Hm & Hleft).
      exists (c :: a), b. simpl. rewrite Nat.add_succ_r.
      repeat split; auto.
      intros a1 a2 Ha Hne. destruct a1 as [|x a1]; simpl in *.
      * subst a2. rewrite Nat.add_0_r. exact E.
      * injection Ha as -> ->. rewrite Nat.add_succ_r. now apply Hleft.
Qed.

(** If the pattern matches somewhere, [search] finds a match. *)
Lemma search_from_complete (r : Re.pattern) (a : str) :
  forall b prev pos,
    Re.m r (0, 0) (last_of prev a) b (pos + length a) <> None ->
    Re.search_from r prev (a ++ b) pos <> None.
Proof.
  induction a as [|c a IH]; intros b prev pos H; simpl in *.
  - rewrite Nat.add_0_r in H.
    destruct b as [|x b]; simpl;
      destruct (Re.m r (0, 0) prev _ pos); [discriminate|contradiction|
                                            discriminate|contradiction].
  - destruct (Re.m r (0, 0) prev (c :: a ++ b) pos); [discriminate|].
    rewrite Nat.add_succ_r in H. now apply IH.
Qed.

Lemma skipn_length_app {A} (a : list A) (n : nat) (b : list A) :
  skipn (length a + n) (a ++ b) = skipn n b.
Proof. induction a as [|x a IH]; simpl; auto. Qed.

Lemma firstn_length_app {A} (a b : list A) :
  firstn (length a) (a ++ b) = a.
Proof. induction a as [|x a IH]; simpl; [reflexivity|now rewrite IH]. Qed.

(** ** Wildcard imports *)

Lemma invalid_imports_step_appends (acc : list str) (line : str) :
  invalid_imports_step acc line = acc ++ invalid_imports_entry line.
Proof.
  unfold invalid_imports_entry, invalid_imports_step.
  destruct (Py.startswith _ _); [now rewrite app_nil_r|].
  destruct (Re.search FROM_IMPORT line); [|now rewrite app_nil_r].
  destruct (Py.contains _ _); [reflexivity|now rewrite app_nil_r].
Qed.

Lemma invalid_imports_fold (lines : list str) :
  forall acc,
    fold_left invalid_imports_step lines acc =
    acc ++ flat_map invalid_imports_entry lines.
Proof.
  induction lines as [|line rest IH]; intros acc; simpl.
  - now rewrite app_nil_r.
  - now rewrite IH, invalid_imports_step_appends, app_assoc.
Qed.

Lemma m_from_import_sound g prev s pos a b e :
  Re.m FROM_IMPORT g prev s pos = Some ((a, b), e) ->
  exists w1 md w2 w3 post,
    s = lit "from" ++ w1 :: md ++ w2 :: lit "import" ++ w3 :: post /\
    Py.isspace w1 = true /\ Py.isspace w2 = true /\ Py.isspace w3 = true /\
    forallb Re.dot md = true /\
    a = pos + 5 /\ b = pos + 5 + length md.
Proof.
  unfold FROM_IMPORT. cbn [map lit list_ascii_of_string app]. intros H.
  do 4 (apply m_chr in H; destruct H as (? & -> & H)).
  apply m_cls in H. destruct H as (w1 & ? & -> & Hw1 & H).
  rewrite m_gopen, m_star in H. apply greedy_sound in H.
  destruct H as (md & rest & -> & Hmd & H).
  rewrite m_gclose in H.
  apply m_cls in H. destruct H as (w2 & ? & -> & Hw2 & H).
  do 6 (apply m_chr in H; destruct H as (? & -> & H)).
  apply m_cls in H. destruct H as (w3 & post & -> & Hw3 & H).
  simpl in H. injection H as <- <- <-.
  exists w1, md, w2, w3, post. repeat split; auto; lia.
Qed.

Lemma m_from_import_complete g prev pos w1 md w2 w3 post :
  Py.isspace w1 = true -> Py.isspace w2 = true -> Py.isspace w3 = true ->
  forallb Re.dot md = true ->
  Re.m FROM_IMPORT g prev
    (lit "from" ++ w1 :: md ++ w2 :: lit "import" ++ w3 :: post) pos <> None.
Proof.
  intros Hw1 Hw2 Hw3 Hmd.
  unfold FROM_IMPORT. cbn [map lit list_ascii_of_string app].
  rewrite !m_chr_hit, (m_cls_hit _ _ _ _ _ _ _ Hw1), m_gopen, m_star.
  apply greedy_complete; [exact Hmd|].
  rewrite m_gclose, (m_cls_hit _ _ _ _ _ _ _ Hw2), !m_chr_hit,
    (m_cls_hit _ _ _ _ _ _ _ Hw3).
  discriminate.
Qed.

(** The group of a match of the pattern is the [module] of a
    decomposition of the line. *)
Lemma search_from_import_sound (line : str) (f : nat * Re.found) :
  Re.search FROM_IMPORT line = Some f ->
  from_import_form line (Re.group1 line f).
Proof.
  destruct f as (st & (a & b) & e). intros H.
  apply search_from_sound in H.
  destruct H as (pre & s & -> & -> & Hm & _).
  apply m_from_import_sound in Hm.
  destruct Hm as (w1 & md & w2 & w3 & post & -> & Hw1 & Hw2 & Hw3 & Hmd & -> & ->).
  exists pre, w1, w2, w3, post.
  replace (Re.group1 _ _) with md; [auto|].
  unfold Re.group1. simpl plus.
  replace (length pre + 5 + length md - (length pre + 5)) with (length md)
    by lia.
  rewrite skipn_length_app. simpl. now rewrite firstn_length_app.
Qed.

Lemma search_from_import_complete (line module : str) :
  from_import_form line module -> Re.search FROM_IMPORT line <> None.
Proof.
  intros (pre & w1 & w2 & w3 & post & -> & Hw1 & Hw2 & Hw3 & Hmd).
  apply search_from_complete. now apply m_from_import_complete.
Qed.


(** ** Variable names *)

Lemma variable_length_step_appends (acc : list nat) (i : nat) (line : str) :
  variable_length_step acc i line = acc ++ variable_length_entry i line.
Proof.
  unfold variable_length_entry, variable_length_step.
  destruct (Re.search ASSIGNED_NAME line); [|now rewrite app_nil_r].
  simpl. destruct (list_eq_dec _ _ _); [now rewrite app_nil_r|].
  destruct (_ <? _); [reflexivity|now rewrite app_nil_r].
Qed.

Lemma variable_length_entry_own (i : nat) (line : str) :
  variable_length_entry i line = [] \/ variable_length_entry i line = [i + 1].
Proof.
  unfold variable_length_entry, variable_length_step.
  destruct (Re.search ASSIGNED_NAME line); [|now left].
  simpl. destruct (list_eq_dec _ _ _); [now left|].
  destruct (_ <? _); [now right|now left].
Qed.

Lemma variable_length_flagged (lines : list str) (i : nat) (line : str)
    (f : nat * Re.found) :
  nth_error lines i = Some line ->
  Re.search ASSIGNED_NAME line = Some f ->
  (In (i + 1) (check_implementation_variable_length lines) <->
   Py.upper (Re.group1 line f) <> Re.group1 line f /\
   MAX_VARIABLE_NAME_LENGTH < length (Re.group1 line f)).
Proof.
  intros Hi Hs. unfold check_implementation_variable_length.
  rewrite (for_enumerate_line _ _ variable_length_step_appends
             variable_length_entry_own lines i line Hi).
  unfold variable_length_entry, variable_length_step. rewrite Hs. simpl.
  destruct (list_eq_dec _ _ _) as [E|E].
  - split; [discriminate|]. intros [H _]. contradiction.
  - destruct (_ <? _) eqn:L.
    + apply Nat.ltb_lt in L. tauto.
    + apply Nat.ltb_ge in L. split; [discriminate|]. intros [_ H]. lia.
Qed.

(** A line where the pattern finds nothing is never recorded. *)
Lemma variable_length_no_match (lines : list str) (i : nat) (line : str) :
  nth_error lines i = Some line ->
  Re.search ASSIGNED_NAME line = None ->
  ~ In (i + 1) (check_implementation_variable_length lines).
Proof.
  intros Hi Hs. unfold check_implementation_variable_length.
  rewrite (for_enumerate_line _ _ variable_length_step_appends
             variable_length_entry_own lines i line Hi).
  unfold variable_length_entry, variable_length_step. rewrite Hs. discriminate.
Qed.

Lemma upper_char_capital (c : ascii) :
  Py.isupper c = true -> Py.upper_char c = c.
Proof.
  unfold Py.upper_char, Py.isupper, Py.islower. intros H.
  apply andb_true_iff in H. destruct H as [H1 H2].
  apply Nat.leb_le in H1, H2.
  destruct (97 <=? nat_of_ascii c) eqn:E; [|reflexivity].
  apply Nat.leb_le in E. lia.
Qed.

(** A name made of capital letters only is its own upper-casing. *)
Lemma upper_capitals (w : str) :
  forallb Py.isupper w = true -> Py.upper w = w.
Proof.
  induction w as [|c w IH]; simpl; [reflexivity|]. intros H.
  apply andb_true_iff in H. destruct H as [Hc Hw].
  now rewrite (upper_char_capital c Hc), (IH Hw).
Qed.

Lemma upper_char_fixed (c : ascii) :
  Py.upper_char c = c <-> Py.islower c = false.
Proof.
  unfold Py.upper_char. destruct (Py.islower c) eqn:E; [|tauto].
  split; [|discriminate]. intros H. exfalso.
  unfold Py.islower in E. apply andb_true_iff in E. destruct E as [E1 E2].
  apply Nat.leb_le in E1, E2.
  apply (f_equal nat_of_ascii) in H.
  rewrite nat_ascii_embedding in H by lia. lia.
Qed.

(** A name is its own upper-casing exactly when it holds no lower-case
    letter: digits and underscores do not matter. *)
Lemma upper_fixed_iff (w : str) :
  Py.upper w = w <-> forallb (fun c => negb (Py.islower c)) w = true.
Proof.
  induction w as [|c w IH]; simpl; [tauto|].
  rewrite andb_true_iff, negb_true_iff, <- IH, <- upper_char_fixed.
  split.
  - intros H. injection H as H1 H2. auto.
  - intros [H1 H2]. f_equal; assumption.
Qed.

Lemma m_wordb (r : Re.pattern) g prev s pos f :
  Re.m (Re.WordB :: r) g prev s pos = Some f ->
  xorb (Re.word_before prev) (Re.word_after s) = true /\
  Re.m r g prev s pos = Some f.
Proof.
  simpl. destruct (xorb _ _); [auto|discriminate].
Qed.

Lemma m_plus (p : ascii -> bool) (r : Re.pattern) g prev s pos f :
  Re.m (Re.Plus p :: r) g prev s pos = Some f ->
  exists x s', s = x :: s' /\ p x = true /\
               Re.greedy p (Re.m r g) (Some x) s' (S pos) = Some f.
Proof.
  destruct s as [|x s]; simpl; [discriminate|].
  destruct (p x) eqn:E; [|discriminate].
  intros H. now exists x, s.
Qed.

Lemma m_wordb_hit (r : Re.pattern) g prev s pos :
  xorb (Re.word_before prev) (Re.word_after s) = true ->
  Re.m (Re.WordB :: r) g prev s pos = Re.m r g prev s pos.
Proof. intros H. simpl. now rewrite H. Qed.

Lemma m_plus_hit (p : ascii -> bool) (r : Re.pattern) g prev x s pos :
  p x = true ->
  Re.m (Re.Plus p :: r) g prev (x :: s) pos =
  Re.greedy p (Re.m r g) (Some x) s (S pos).
Proof. intros H. simpl. now rewrite H. Qed.

Lemma m_assigned_name_sound g prev s pos a b e :
  Re.m ASSIGNED_NAME g prev s pos = Some ((a, b), e) ->
  exists word ws post,
    s = word ++ ws ++ "="%char :: post /\
    word <> [] /\
    forallb Py.isword word = true /\
    forallb Py.isspace ws = true /\
    Re.word_before prev = false /\
    a = pos /\ b = pos + length word.
Proof.
  unfold ASSIGNED_NAME. intros H.
  apply m_wordb in H. destruct H as [Hb H].
  rewrite m_gopen in H. apply m_plus in H.
  destruct H as (x & s' & -> & Hx & H).
  apply greedy_sound in H. destruct H as (w & rest & -> & Hw & H).
  rewrite m_gclose, m_star in H. apply greedy_sound in H.
  destruct H as (ws & rest' & -> & Hws & H).
  apply m_chr in H. destruct H as (post & -> & H).
  simpl in H. injection H as <- <- <-.
  exists (x :: w), ws, post. simpl. rewrite Hx, Hw.
  simpl in Hb. rewrite Hx in Hb.
  repeat split; auto; try discriminate; try lia.
  now destruct (Re.word_before prev).
Qed.

Lemma m_assigned_name_complete g prev pos word ws post :
  word <> [] ->
  forallb Py.isword word = true ->
  forallb Py.isspace ws = true ->
  Re.word_before prev = false ->
  Re.m ASSIGNED_NAME g prev (word ++ ws ++ "="%char :: post) pos <> None.
Proof.
  intros Hne Hw Hws Hb. destruct word as [|x w]; [contradiction|].
  simpl in Hw. apply andb_true_iff in Hw. destruct Hw as [Hx Hw].
  unfold ASSIGNED_NAME.
  change ((x :: w) ++ ws ++ "="%char :: post)
    with (x :: (w ++ ws ++ "="%char :: post)).
  rewrite m_wordb_hit by (simpl; now rewrite Hb, Hx).
  rewrite m_gopen, (m_plus_hit _ _ _ _ _ _ _ Hx).
  apply greedy_complete; [exact Hw|].
  rewrite m_gclose, m_star.
  apply greedy_complete; [exact Hws|].
  rewrite m_chr_hit. discriminate.
Qed.

Lemma common_prefix {A} (a b a' b' : list A) :
  a ++ b = a' ++ b' -> length a' < length a ->
  exists a2, a = a' ++ a2 /\ a2 <> [] /\ b' = a2 ++ b.
Proof.
  revert a'. induction a as [|x a IH]; intros a' H L; simpl in *; [lia|].
  destruct a' as [|x' a']; simpl in *.
  - exists (x :: a). repeat split; auto. discriminate.
  - injection H as <- H. apply IH in H; [|lia].
    destruct H as (a2 & -> & Hne & ->). now exists a2.
Qed.

(** The name the pattern captures is the first one of the line that is
    followed by [=]: it has the form above, and no name of that form
    starts earlier. *)
Lemma search_assigned_name_first (line : str) (f : nat * Re.found) :
  Re.search ASSIGNED_NAME line = Some f ->
  exists pre ws post,
    assigned_name_form line pre (Re.group1 line f) ws post /\
    forall pre' word' ws' post',
      assigned_name_form line pre' word' ws' post' ->
      length pre <= length pre'.
Proof.
  destruct f as (st & (a & b) & e). intros H.
  apply search_from_sound in H.
  destruct H as (pre & s & -> & -> & Hm & Hleft).
  apply m_assigned_name_sound in Hm.
  destruct Hm as (word & ws & post & -> & Hne & Hw & Hws & Hb & -> & ->).
  exists pre, ws, post. split.
  - replace (Re.group1 _ _) with word; [now repeat split|].
    unfold Re.group1. simpl plus.
    replace (length pre + length word - length pre) with (length word) by lia.
    rewrite <- (Nat.add_0_r (length pre)) at 1.
    rewrite skipn_length_app. simpl. now rewrite firstn_length_app.
  - intros pre' word' ws' post' (E & Hne' & Hw' & Hws' & Hb').
    destruct (Nat.le_gt_cases (length pre) (length pre')) as [L|L]; [exact L|].
    exfalso. destruct (common_prefix _ _ _ _ E L) as (a2 & -> & Ha2 & E2).
    specialize (Hleft pre' a2 eq_refl Ha2). rewrite <- E2 in Hleft.
    revert Hleft. now apply m_assigned_name_complete.
Qed.

(** C8.  On a line where an identifier is followed by [=], the identifier
    looked at is the first such one.  If it is written in capital letters
    only, or more generally holds no lower-case letter, the line is never
    recorded, whatever the length of the identifier; otherwise the line is
    recorded, under its 1-indexed number, exactly when the identifier has
    more than 25 characters.  No line is recorded twice. *)
Theorem variable_length_decided_by_first_name (lines : list str) (i : nat)
    (line : str) (f : nat * Re.found) (word : str) :
  nth_error lines i = Some line ->
  Re.search ASSIGNED_NAME line = Some f ->
  word = Re.group1 line f ->
  (exists pre ws post,
     assigned_name_form line pre word ws post /\
     forall pre' word' ws' post',
       assigned_name_form line pre' word' ws' post' ->
       length pre <= length pre') /\
  (forallb Py.isupper word = true ->
   ~ In (i + 1) (check_implementation_variable_length lines)) /\
  (Py.upper word = word ->
   ~ In (i + 1) (check_implementation_variable_length lines)) /\
  (Py.upper word <> word ->
   (In (i + 1) (check_implementation_variable_length lines) <->
    25 < length word)) /\
  NoDup (check_implementation_variable_length lines).
Proof.
  intros Hi Hs ->.
  pose proof (variable_length_flagged lines i line f Hi Hs) as H.
  unfold MAX_VARIABLE_NAME_LENGTH in H.
  split; [now apply search_assigned_name_first|].
  split; [|split; [|split]].
  - intros Hcap Hin. apply H in Hin. destruct Hin as [Hin _].
    apply Hin. now apply upper_capitals.
  - intros Hup Hin. apply H in Hin. now destruct Hin.
  - intros Hup. rewrite H. tauto.
  - apply (for_enumerate_NoDup _ _ variable_length_step_appends
             variable_length_entry_own).
Qed.

Lemma variable_length_decided_by_first_name_witness :
  ~ In 1 (check_implementation_variable_length assignment_lines) /\
  In 2 (check_implementation_variable_length assignment_lines) /\
  ~ In 3 (check_implementation_variable_length assignment_lines).
Proof.
  split; [|split].
  - edestruct (variable_length_decided_by_first_name assignment_lines 0)
      as (_ & _ & _ & H & _).
    + reflexivity.
    + vm_compute. reflexivity.
    + reflexivity.
    + intros Hin. apply H in Hin.
      * apply Nat.ltb_lt in Hin. discriminate Hin.
      * vm_compute. intros E. discriminate E.
  - edestruct (variable_length_decided_by_first_name assignment_lines 1)
      as (_ & _ & _ & H & _).
    + reflexivity.
    + vm_compute. reflexivity.
    + reflexivity.
    + apply H.
      * vm_compute. intros E. discriminate E.
      * apply Nat.ltb_lt. reflexivity.
  - edestruct (variable_length_decided_by_first_name assignment_lines 2)
      as (_ & _ & H & _).
    + reflexivity.
    + vm_compute. reflexivity.
    + reflexivity.
    + apply H. reflexivity.
Defined.

(** ** Function length *)

Lemma firstn_snoc_nth {A} (l : list A) :
  forall j x, nth_error l j = Some x -> firstn (S j) l = firstn j l ++ [x].
Proof.
  induction l as [|y l IH]; intros j x H; [now destruct j|].
  destruct j as [|j]; simpl in *.
  - now injection H as ->.
  - f_equal. now apply IH.
Qed.

Lemma skipn_cons_nth {A} (l : list A) :
  forall j x, nth_error l j = Some x -> skipn j l = x :: skipn (S j) l.
Proof.
  induction l as [|y l IH]; intros j x H; [now destruct j|].
  destruct j as [|j]; simpl in *.
  - now injection H as ->.
  - now apply IH.
Qed.

Lemma firstn_pop {A} (l : list A) :
  forall j, firstn j (Py.pop j l) = firstn j l.
Proof.
  unfold Py.pop. induction l as [|x l IH]; intros j.
  - now destruct j.
  - destruct j as [|j]; [reflexivity|].
    simpl. f_equal. apply IH.
Qed.

Lemma skipn_pop {A} (l : list A) :
  forall j, skipn j (Py.pop j l) = skipn (S j) l.
Proof.
  unfold Py.pop. induction l as [|x l IH]; intros j.
  - now destruct j.
  - destruct j as [|j]; [reflexivity|].
    simpl. apply IH.
Qed.

Lemma pop_comment_lines_firstn (i : nat) :
  forall function_code,
    i <= length function_code ->
    pop_comment_lines i function_code =
    code_of (firstn i function_code) ++ skipn i function_code.
Proof.
  induction i as [|j IH]; intros l Hl; [reflexivity|].
  cbn [pop_comment_lines].
  destruct (nth_error l j) as [line|] eqn:E.
  2:{ apply nth_error_None in E. lia. }
  rewrite (firstn_snoc_nth l j line E). unfold code_of.
  rewrite filter_app. simpl.
  assert (Hj : length (firstn j l) = j) by (apply firstn_length_le; lia).
  destruct (is_comment_line line); simpl.
  - rewrite IH.
    + now rewrite firstn_pop, skipn_pop, app_nil_r.
    + unfold Py.pop. rewrite length_app, Hj. lia.
  - rewrite IH by lia. unfold code_of.
    rewrite (skipn_cons_nth l j line E), <- app_assoc. reflexivity.
Qed.

(** The loop that pops while it walks backwards removes every comment
    line of the span, wherever it stands. *)
Lemma pop_comment_lines_all (function_code : list str) :
  pop_comment_lines (length function_code) function_code =
  code_of function_code.
Proof.
  rewrite pop_comment_lines_firstn by lia.
  now rewrite firstn_all, skipn_all, app_nil_r.
Qed.




Lemma count_app (c : ascii) (a b : str) :
  Py.count c (a ++ b) = Py.count c a + Py.count c b.
Proof. unfold Py.count. now rewrite filter_app, length_app. Qed.

Lemma count_absent (c : ascii) (a : str) : ~ In c a -> Py.count c a = 0.
Proof.
  unfold Py.count. induction a as [|x a IH]; intros H; simpl; [reflexivity|].
  destruct (Ascii.eqb c x) eqn:E.
  - apply Ascii.eqb_eq in E. subst x. exfalso. apply H. now left.
  - apply IH. intros Hin. apply H. now right.
Qed.


(** Joined lines that hold no newline of their own have one newline
    less than there are lines. *)
Lemma count_join (parts : list str) :
  (forall p, In p parts -> ~ In newline p) ->
  Py.count newline (Py.join [newline] parts) = pred (length parts).
Proof.
  induction parts as [|p rest IH]; intros H; [reflexivity|].
  destruct rest as [|p' rest].
  - simpl. apply count_absent. apply H. now left.
  - change (Py.join [newline] (p :: p' :: rest))
      with (p ++ [newline] ++ Py.join [newline] (p' :: rest)).
    rewrite !count_app, IH by (intros x Hx; apply H; now right).
    rewrite count_absent by (apply H; now left). reflexivity.
Qed.

Lemma long_functions_step_appends (code_lines : list str) (acc : list str)
    (n : node) :
  long_functions_step code_lines acc n =
  acc ++ long_functions_entry code_lines n.
Proof.
  unfold long_functions_entry, long_functions_step.
  destruct n; try now rewrite app_nil_r.
  destruct (_ <? _); [reflexivity|now rewrite app_nil_r].
Qed.

Lemma long_functions_fold (code_lines : list str) (nodes : list node) :
  forall acc,
    fold_left (long_functions_step code_lines) nodes acc =
    acc ++ flat_map (long_functions_entry code_lines) nodes.
Proof.
  induction nodes as [|n rest IH]; intros acc; simpl.
  - now rewrite app_nil_r.
  - now rewrite IH, long_functions_step_appends, app_assoc.
Qed.

(** ** Headers of functions *)

Lemma for_each_invariant {A St} (P : St -> Prop) (items : list A)
    (step : St -> A -> result St) :
  (forall acc x acc', In x items -> P acc -> step acc x = Ok acc' -> P acc') ->
  forall acc l, P acc -> for_each items step acc = Ok l -> P l.
Proof.
  induction items as [|x rest IH]; intros Hstep acc l Hacc H; simpl in H.
  - now injection H as <-.
  - destruct (step acc x) as [acc'|e] eqn:E; simpl in H; [|discriminate].
    apply (IH (fun a y a' Hy => Hstep a y a' (or_intror Hy)) acc' l); auto.
    apply (Hstep acc x acc'); auto. now left.
Qed.

Lemma for_each_returns {A St} (items : list A) (step : St -> A -> result St) :
  (forall acc x, In x items -> exists acc', step acc x = Ok acc') ->
  forall acc, exists l, for_each items step acc = Ok l.
Proof.
  induction items as [|x rest IH]; intros Hstep acc; simpl.
  - now exists acc.
  - destruct (Hstep acc x (or_introl eq_refl)) as [acc' ->]. simpl.
    apply IH. intros a y Hy. apply Hstep. now right.
Qed.

Lemma index_in_range {A} (l : list A) (i : Z) :
  (- Z.of_nat (length l) <= i < Z.of_nat (length l))%Z ->
  exists a, Py.index l i = Ok a.
Proof.
  intros H. unfold Py.index. cbv zeta.
  destruct (i <? 0)%Z eqn:Hi;
    [apply Z.ltb_lt in Hi | apply Z.ltb_ge in Hi].
  - destruct (i + Z.of_nat (length l) <? 0)%Z eqn:E1;
      [apply Z.ltb_lt in E1; lia|].
    destruct (Z.of_nat (length l) <=? i + Z.of_nat (length l))%Z eqn:E2;
      [apply Z.leb_le in E2; lia|]. simpl.
    destruct (nth_error l (Z.to_nat (i + Z.of_nat (length l)))) eqn:E;
      [eauto|]. apply nth_error_None in E. lia.
  - destruct (i <? 0)%Z eqn:E1; [apply Z.ltb_lt in E1; lia|].
    destruct (Z.of_nat (length l) <=? i)%Z eqn:E2;
      [apply Z.leb_le in E2; lia|]. simpl.
    destruct (nth_error l (Z.to_nat i)) eqn:E; [eauto|].
    apply nth_error_None in E. lia.
Qed.

(** A negative index names the same element as the index [len] above. *)
Lemma index_wrap {A} (l : list A) (i : Z) :
  (0 <= i < Z.of_nat (length l))%Z ->
  Py.index l (i - Z.of_nat (length l)) = Py.index l i.
Proof.
  intros H. unfold Py.index. cbv zeta.
  destruct (i - Z.of_nat (length l) <? 0)%Z eqn:E1;
    [|apply Z.ltb_ge in E1; lia].
  destruct (i <? 0)%Z eqn:E2; [apply Z.ltb_lt in E2; lia|].
  replace (i - Z.of_nat (length l) + Z.of_nat (length l))%Z with i by lia.
  now rewrite E2.
Qed.

Lemma comment_header_loop_returns (implementation : list str)
    (start_line : Z) (def_line : str) :
  (0 <= start_line < Z.of_nat (length implementation))%Z ->
  Py.index implementation start_line = Ok def_line ->
  is_comment_line def_line = false ->
  forall fuel has idx line,
    (start_line - Z.of_nat (length implementation) <= idx <= start_line - 1)%Z ->
    Py.index implementation idx = Ok line ->
    (idx - (start_line - Z.of_nat (length implementation)) < Z.of_nat fuel)%Z ->
    exists b,
      comment_header_loop fuel implementation has idx line = Some (Ok b).
Proof.
  intros Hs Hd Hc. induction fuel as [|fuel IH]; intros has idx line Hi Hl Hf.
  - lia.
  - simpl. destruct (is_comment_line line) eqn:E; [|eauto].
    assert (Hne : idx <> (start_line - Z.of_nat (length implementation))%Z).
    { intros ->. rewrite index_wrap in Hl by exact Hs. congruence. }
    destruct (index_in_range implementation (idx - 1)) as [line' Hl'];
      [lia|].
    rewrite Hl'. apply IH; [lia|exact Hl'|lia].
Qed.

(** On a definition line that is inside the file and is not itself a
    comment line, the detector returns a boolean. *)
Lemma comment_header_returns (implementation : list str) (start_line : Z)
    (def_line : str) :
  Py.index implementation start_line = Ok def_line ->
  (0 <= start_line)%Z ->
  is_comment_line def_line = false ->
  exists b, comment_header implementation start_line = Ok b.
Proof.
  intros Hd H0 Hc. pose proof (index_Ok_bounds _ _ _ Hd) as Hb.
  unfold comment_header, check_module_using_comment_header.
  destruct (index_in_range implementation (start_line - 1)) as [line Hl];
    [lia|].
  rewrite Hl.
  destruct (comment_header_loop_returns implementation start_line def_line
              ltac:(lia) Hd Hc (header_fuel implementation start_line)
              false (start_line - 1)%Z line) as [b ->];
    [lia|exact Hl|unfold header_fuel; lia|].
  now exists b.
Qed.

Lemma comment_header_eq (implementation : list str) (start_line : Z) :
  check_module_using_comment_header implementation start_line =
  Some (comment_header implementation start_line).
Proof.
  unfold comment_header.
  destruct (check_module_using_comment_header implementation start_line)
    eqn:E; [reflexivity|].
  now apply comment_header_total in E.
Qed.

(** Once a comment line has been seen the loop can only answer [True]. *)
Lemma comment_header_loop_seen (fuel : nat) :
  forall implementation idx line b,
    comment_header_loop fuel implementation true idx line = Some (Ok b) ->
    b = true.
Proof.
  induction fuel as [|fuel IH]; intros implementation idx line b; simpl.
  - destruct (is_comment_line line); [discriminate|].
    intros H. now injection H as <-.
  - destruct (is_comment_line line).
    + destruct (Py.index implementation (idx - 1)); [apply IH|discriminate].
    + intros H. now injection H as <-.
Qed.

(** A definition on the first line of any file that ends with a comment
    line is reported as having a comment header. *)
Lemma first_line_definition_comment_end (implementation : list str)
    (def_line last_line : str) :
  Py.index implementation 0 = Ok def_line ->
  is_comment_line def_line = false ->
  Py.index implementation (-1) = Ok last_line ->
  is_comment_line last_line = true ->
  check_module_using_comment_header implementation 0 = Some (Ok true).
Proof.
  intros Hd Hc Hl Hlc.
  destruct (comment_header_returns implementation 0 def_line Hd
              ltac:(lia) Hc) as [b Hb].
  rewrite comment_header_eq, Hb. do 2 f_equal.
  pose proof (comment_header_eq implementation 0) as E. rewrite Hb in E.
  unfold check_module_using_comment_header in E.
  change (0 - 1)%Z with (-1)%Z in E. rewrite Hl in E.
  unfold header_fuel in E. cbn [comment_header_loop] in E.
  rewrite Hlc in E.
  destruct (Py.index implementation (-1 - 1)); [|discriminate].
  now apply comment_header_loop_seen in E.
Qed.

Lemma splitlines_from_no_newline (n : nat) :
  forall s cur,
    length s <= n ->
    ~ In newline cur ->
    forall line, In line (Py.splitlines_from cur s) -> ~ In newline line.
Proof.
  assert (Hrev : forall cur line, ~ In newline cur -> line = rev cur ->
                                  ~ In newline line).
  { intros cur line H -> Hin. apply H. now apply in_rev. }
  induction n as [|n IH]; intros s cur Hlen Hcur line Hin.
  - destruct s; [|simpl in Hlen; lia]. cbn [Py.splitlines_from] in Hin.
    destruct cur; [destruct Hin|]. destruct Hin as [<-|[]].
    now apply (Hrev (a :: cur)).
  - destruct s as [|c s]; cbn [Py.splitlines_from] in Hin.
    + destruct cur; [destruct Hin|]. destruct Hin as [<-|[]].
      now apply (Hrev (a :: cur)).
    + simpl in Hlen. destruct (Ascii.eqb c "013").
      * destruct s as [|d s].
        -- destruct Hin as [<-|[]]. now apply (Hrev cur).
        -- simpl in Hlen.
           destruct (Ascii.eqb d newline);
             (destruct Hin as [<-|Hin]; [now apply (Hrev cur)|]);
             [apply (IH s [])|apply (IH (d :: s) [])];
             simpl; auto; lia.
      * destruct (Py.islinebreak c) eqn:Hb.
        -- destruct Hin as [<-|Hin]; [now apply (Hrev cur)|].
           apply (IH s []); simpl; auto; lia.
        -- apply (IH s (c :: cur)); auto; [lia|].
           intros [E|H]; [subst c; cbv in Hb; discriminate Hb|contradiction].
Qed.

(** The lines [splitlines] returns hold no newline. *)
Lemma splitlines_no_newline (text line : str) :
  In line (Py.splitlines text) -> ~ In newline line.
Proof.
  apply (splitlines_from_no_newline (length text) text []); auto.
Qed.

(** On a file whose function definitions stand on lines of the file that
    are not comment lines, the header check of functions returns its
    list. *)
Lemma check_functions_headers_returns (code_lines : list str) (t : tree) :
  (forall name lineno e d,
     In (FunctionDef name lineno e d) (walk t) ->
     exists def_line,
       (1 <= lineno)%Z /\
       Py.index code_lines (lineno - 1) = Ok def_line /\
       is_comment_line def_line = false) ->
  exists l, check_functions_headers code_lines (Ok t) = Ok l.
Proof.
  intros H. unfold check_functions_headers. simpl.
  apply for_each_returns. intros acc n Hn.
  destruct n as [name lineno e d| | |]; try (simpl; eauto; fail).
  destruct (H name lineno e d Hn) as (def_line & H1 & Hd & Hc).
  unfold functions_headers_step. rewrite Hd. cbn [bind].
  destruct (Py.contains (lit "def __") def_line); [eauto|].
  destruct (comment_header_returns code_lines (lineno - 1) def_line Hd
              ltac:(lia) Hc) as [b ->].
  cbn [bind]. destruct (negb (truthy d) && negb b); eauto.
Qed.

Lemma startswith_app (p s : str) : Py.startswith p (p ++ s) = true.
Proof.
  induction p as [|c p IH]; simpl; [reflexivity|].
  now rewrite Ascii.eqb_refl.
Qed.

Lemma contains_app (p pre post : str) :
  Py.contains p (pre ++ p ++ post) = true.
Proof.
  induction pre as [|c pre IH]; simpl.
  - destruct (p ++ post) as [|x s] eqn:E; simpl; rewrite <- E;
      now rewrite startswith_app.
  - rewrite IH. apply orb_true_r.
Qed.

(** The line of a definition written [def __name...] holds the text the
    header check looks for. *)
Lemma reserved_name_definition_line (pre rest post : str) :
  Py.contains (lit "def __")
    (pre ++ lit "def " ++ (lit "__" ++ rest) ++ post) = true.
Proof.
  change (pre ++ lit "def " ++ (lit "__" ++ rest) ++ post)
    with (pre ++ lit "def __" ++ (rest ++ post)).
  apply contains_app.
Qed.

Lemma long_function_reported (code_lines acc : list str) (name : str)
    (lineno : Z) (end_lineno : option Z) (docstring : option str) :
  42 <= line_count (measured_code code_lines lineno end_lineno) ->
  long_functions_step code_lines acc
    (FunctionDef name lineno end_lineno docstring) = acc ++ [name].
Proof.
  intros H. unfold long_functions_step, line_count in *.
  replace (_ <? _) with true; [reflexivity|].
  symmetry. apply Nat.ltb_lt. lia.
Qed.

(** ** The report aggregator *)

Lemma dict_get_set {V} (k k' : string) (v : V) (d : dict V) :
  dict_get k (dict_set k' v d) =
  if String.eqb k k' then Ok v else dict_get k d.
Proof.
  induction d as [|[k'' v''] d IH]; simpl; [reflexivity|].
  destruct (String.eqb k' k'') eqn:E; simpl.
  - apply String.eqb_eq in E. subst k''.
    destruct (String.eqb k k'); reflexivity.
  - rewrite IH. destruct (String.eqb k k'') eqn:E2; [|reflexivity].
    apply String.eqb_eq in E2. subst k''.
    rewrite String.eqb_sym, E. reflexivity.
Qed.

Lemma dict_get_set_same {V} (k : string) (v : V) (d : dict V) :
  dict_get k (dict_set k v d) = Ok v.
Proof. now rewrite dict_get_set, String.eqb_refl. Qed.

Lemma dict_get_set_other {V} (k k' : string) (v : V) (d : dict V) :
  k <> k' -> dict_get k (dict_set k' v d) = dict_get k d.
Proof.
  intros H. rewrite dict_get_set.
  apply String.eqb_neq in H. now rewrite H.
Qed.

(** One loop of the aggregator: the checkbox string grows by one line per
    item, the flag is cleared as soon as there is an item, and no other
    variable changes. *)
Lemma report_loop (fl cb : string) (lab : item -> str) (items : list item) :
  fl <> cb ->
  forall tv s0,
    dict_get cb tv = Ok (VStr s0) ->
    exists tv',
      for_each items
        (fun tv x =>
           let tv := dict_set fl (VBool false) tv in
           dict_add cb (CHECKBOX_OUTLINE (lit " ") (lab x)) tv) tv = Ok tv' /\
      dict_get cb tv' = Ok (VStr (s0 ++ checkbox_lines lab items)) /\
      dict_get fl tv' =
        (if is_nil items then dict_get fl tv else Ok (VBool false)) /\
      (forall k, k <> fl -> k <> cb -> dict_get k tv' = dict_get k tv).
Proof.
  intros Hne. induction items as [|x rest IH]; intros tv s0 Hcb.
  - exists tv. simpl. rewrite app_nil_r. auto.
  - cbn [for_each]. cbv zeta. unfold dict_add at 1.
    rewrite dict_get_set_other by congruence. rewrite Hcb. cbn [bind].
    set (text := CHECKBOX_OUTLINE (lit " ") (lab x)).
    set (tv2 := dict_set cb (VStr (s0 ++ text)) (dict_set fl (VBool false) tv)).
    destruct (IH tv2 (s0 ++ text)) as (tv' & Hrun & Hcb' & Hfl' & Hframe).
    { unfold tv2. apply dict_get_set_same. }
    exists tv'. split; [exact Hrun|]. split; [|split].
    + rewrite Hcb'. unfold checkbox_lines. simpl. fold text.
      now rewrite <- app_assoc.
    + rewrite Hfl'. simpl. destruct (is_nil rest); [|reflexivity].
      unfold tv2. rewrite dict_get_set_other by exact Hne.
      apply dict_get_set_same.
    + intros k Hk1 Hk2. rewrite Hframe by assumption.
      unfold tv2. now rewrite !dict_get_set_other by assumption.
Qed.

Lemma report_spec (info : dict (option (list item))) (c : category)
    (items : list item) (tv : dict value) (s0 : str) :
  flag c <> checkboxes c ->
  dict_get (source c) info = Ok (Some items) ->
  dict_get (checkboxes c) tv = Ok (VStr s0) ->
  exists tv',
    report info tv c = Ok tv' /\
    dict_get (checkboxes c) tv' =
      Ok (VStr (s0 ++ checkbox_lines (label c) items)) /\
    dict_get (flag c) tv' =
      (if is_nil items then dict_get (flag c) tv else Ok (VBool false)) /\
    (forall k, ~ In k (keys c) -> dict_get k tv' = dict_get k tv).
Proof.
  intros Hne Hsrc Hcb. unfold report, report_category.
  rewrite Hsrc. cbn [bind].
  destruct (report_loop (flag c) (checkboxes c) (label c) items Hne tv s0 Hcb)
    as (tv' & Hrun & H1 & H2 & H3).
  exists tv'. repeat split; auto.
  intros k Hk. apply H3; intros ->; apply Hk; simpl; auto.
Qed.

(** The loops one after the other, over categories with distinct keys. *)
Lemma report_all_spec (info : dict (option (list item)))
    (cats : list category) :
  NoDup (flat_map keys cats) ->
  (forall c, In c cats ->
     exists items, dict_get (source c) info = Ok (Some items)) ->
  forall tv,
    (forall c, In c cats ->
       exists s, dict_get (checkboxes c) tv = Ok (VStr s)) ->
    exists tv',
      for_each cats (report info) tv = Ok tv' /\
      (forall c items s,
         In c cats ->
         dict_get (source c) info = Ok (Some items) ->
         dict_get (checkboxes c) tv = Ok (VStr s) ->
         dict_get (checkboxes c) tv' =
           Ok (VStr (s ++ checkbox_lines (label c) items)) /\
         dict_get (flag c) tv' =
           (if is_nil items then dict_get (flag c) tv else Ok (VBool false))) /\
      (forall k, ~ In k (flat_map keys cats) ->
                 dict_get k tv' = dict_get k tv).
Proof.
  induction cats as [|c rest IH]; intros Hnd Hsrc tv Hcb.
  - exists tv. split; [reflexivity|].
    split; [intros c items s []|reflexivity].
  - simpl in Hnd. inversion Hnd as [|? ? Hfl Hnd1]; subst.
    inversion Hnd1 as [|? ? Hcbk Hnd2]; subst.
    assert (Hne : flag c <> checkboxes c).
    { intros E. apply Hfl. rewrite E. now left. }
    destruct (Hsrc c (or_introl eq_refl)) as [items0 Hsrc0].
    destruct (Hcb c (or_introl eq_refl)) as [s0 Hcb0].
    destruct (report_spec info c items0 tv s0 Hne Hsrc0 Hcb0)
      as (tv1 & Hrun1 & Hcb1 & Hfl1 & Hframe1).
    assert (Hout : forall c', In c' rest -> ~ In (flag c') (keys c) /\
                                            ~ In (checkboxes c') (keys c)).
    { intros c' Hc'.
      assert (Hk : forall k, In k (keys c') -> In k (flat_map keys rest)).
      { intros k Hk. apply in_flat_map. now exists c'. }
      split; intros [E|[E|[]]].
      - apply Hfl. right. rewrite E. apply Hk. simpl. auto.
      - apply Hcbk. rewrite E. apply Hk. simpl. auto.
      - apply Hfl. right. rewrite E. apply Hk. simpl. auto.
      - apply Hcbk. rewrite E. apply Hk. simpl. auto. }
    destruct (IH Hnd2 (fun c' H => Hsrc c' (or_intror H)) tv1)
      as (tv' & Hrun & Hcats & Hframe).
    { intros c' Hc'. destruct (Hcb c' (or_intror Hc')) as [s Hs].
      exists s. rewrite Hframe1; [exact Hs|]. now apply Hout. }
    exists tv'. split; [|split].
    + cbn [for_each]. rewrite Hrun1. exact Hrun.
    + intros c' items s [<-|Hc'] Hi Hs.
      * rewrite Hsrc0 in Hi. injection Hi as <-.
        rewrite Hcb0 in Hs. injection Hs as <-.
        rewrite !Hframe; [now split| |].
        -- intros H. apply Hfl. now right.
        -- exact Hcbk.
      * destruct (Hout c' Hc') as [Ho1 Ho2].
        rewrite <- (Hframe1 (checkboxes c') Ho2) in Hs.
        destruct (Hcats c' items s Hc' Hi Hs) as [H1 H2].
        split; [exact H1|]. rewrite H2. now rewrite Hframe1.
    + intros k Hk. simpl in Hk.
      rewrite Hframe, Hframe1; [reflexivity| |].
      * intros H. apply Hk. simpl in H. simpl. tauto.
      * intros H. apply Hk. simpl. tauto.
Qed.

Lemma categories_NoDup : NoDup (flat_map keys categories).
Proof.
  simpl. repeat (constructor; [simpl; intuition discriminate|]).
  constructor.
Qed.

(** [generate_validation_output] runs the loop of each category in turn. *)
Lemma generate_validation_output_loops (g : globals) :
  generate_validation_output g =
  (tv <- for_each categories (report (specific_file_information g))
           (template_variables g) ;;
   Ok {| template_variables := tv;
         specific_file_information := specific_file_information g |}).
Proof.
  unfold generate_validation_output, categories, report.
  cbn [for_each source flag checkboxes label].
  repeat (match goal with
          | |- context [bind (report_category ?a ?b ?c ?d ?e ?f) _] =>
              destruct (report_category a b c d e f); cbn [bind];
              try reflexivity
          end).
Qed.

Lemma checkbox_lines_nil_iff (lab : item -> str) (items : list item) :
  checkbox_lines lab items = [] <-> items = [].
Proof.
  split; [|now intros ->]. destruct items; [reflexivity|discriminate].
Qed.

(** * Further properties of the checks *)

(** ** The header-comment detector, continued *)

Lemma index_In {A} (l : list A) (i : Z) (a : A) :
  Py.index l i = Ok a -> In a l.
Proof.
  unfold Py.index. cbv zeta.
  destruct (_ || _)%bool; [discriminate|].
  destruct (nth_error l _) eqn:E; [|discriminate].
  intros H. injection H as <-. now apply nth_error_In in E.
Qed.

Lemma index_raises {A} (l : list A) (i : Z) (e : exn) :
  Py.index l i = Raise e -> e = IndexError.
Proof.
  unfold Py.index. cbv zeta.
  destruct (_ || _)%bool; [intros H; now injection H|].
  destruct (nth_error l _); [discriminate|intros H; now injection H].
Qed.

Lemma comment_header_loop_raises (fuel : nat) :
  forall implementation has idx line e,
    comment_header_loop fuel implementation has idx line = Some (Raise e) ->
    e = IndexError.
Proof.
  induction fuel as [|fuel IH]; intros implementation has idx line e; simpl.
  - destruct (is_comment_line line); discriminate.
  - destruct (is_comment_line line); [|discriminate].
    destruct (Py.index implementation (idx - 1)) eqn:E.
    + apply IH.
    + intros H. injection H as <-. now apply index_raises in E.
Qed.

(** X1.  The loop of the detector always comes to an end: the detector
    returns a boolean or raises [IndexError], whatever the lines and the
    start line. *)
Theorem detector_returns_or_raises_index_error (implementation : list str)
    (start_line : Z) :
  (exists b,
     check_module_using_comment_header implementation start_line =
     Some (Ok b)) \/
  check_module_using_comment_header implementation start_line =
  Some (Raise IndexError).
Proof.
  destruct (check_module_using_comment_header implementation start_line)
    as [[b|e]|] eqn:E.
  - left. now exists b.
  - right. unfold check_module_using_comment_header in E.
    destruct (Py.index implementation (start_line - 1)) eqn:I.
    + apply comment_header_loop_raises in E. now subst e.
    + injection E as <-. apply index_raises in I. now subst.
  - now apply comment_header_total in E.
Qed.

(** On a definition line inside the file that is not a comment line, the
    detector answers whether the line at index [start_line - 1] is a
    comment line. *)
Lemma comment_header_above (implementation : list str) (start_line : Z)
    (def_line above : str) :
  Py.index implementation start_line = Ok def_line ->
  (0 <= start_line)%Z ->
  is_comment_line def_line = false ->
  Py.index implementation (start_line - 1) = Ok above ->
  comment_header implementation start_line = Ok (is_comment_line above).
Proof.
  intros Hd H0 Hc Ha.
  destruct (comment_header_returns implementation start_line def_line Hd H0 Hc)
    as [b Hb].
  rewrite Hb. f_equal.
  pose proof (comment_header_eq implementation start_line) as E.
  rewrite Hb in E. unfold check_module_using_comment_header in E.
  rewrite Ha in E. unfold header_fuel in E.
  cbn [comment_header_loop] in E.
  destruct (is_comment_line above).
  - destruct (Py.index implementation (start_line - 1 - 1)); [|discriminate].
    now apply comment_header_loop_seen in E.
  - now injection E as <-.
Qed.

(** X2.  For a definition that stands on a line of the file and is not
    itself a comment line, the detector answers exactly whether the line
    at Python index [start_line - 1] is a comment line: the line above
    the definition, or the last line of the file when the definition is on
    the first line. *)
Theorem detector_answers_for_line_above (implementation : list str)
    (start_line : Z) (def_line above : str) :
  Py.index implementation start_line = Ok def_line ->
  (0 <= start_line)%Z ->
  is_comment_line def_line = false ->
  Py.index implementation (start_line - 1) = Ok above ->
  check_module_using_comment_header implementation start_line =
  Some (Ok (is_comment_line above)).
Proof.
  intros Hd H0 Hc Ha. rewrite comment_header_eq.
  now rewrite (comment_header_above _ _ def_line above).
Qed.

Lemma detector_answers_for_line_above_witness :
  check_module_using_comment_header two_classes 1 = Some (Ok true) /\
  check_module_using_comment_header two_classes 4 = Some (Ok false).
Proof.
  split.
  - exact (detector_answers_for_line_above two_classes 1 (lit "class A:")
             (lit "# Represents X") eq_refl ltac:(lia) eq_refl eq_refl).
  - exact (detector_answers_for_line_above two_classes 4 (lit "class B:")
             (lit "") eq_refl ltac:(lia) eq_refl eq_refl).
Defined.

Lemma comment_header_loop_all_comments (implementation : list str) :
  (forall line, In line implementation -> is_comment_line line = true) ->
  forall fuel has idx line r,
    In line implementation ->
    comment_header_loop fuel implementation has idx line = Some r ->
    r = Raise IndexError.
Proof.
  intros Hall. induction fuel as [|fuel IH]; intros has idx line r Hin; simpl;
    rewrite (Hall line Hin); [discriminate|].
  destruct (Py.index implementation (idx - 1)) eqn:E.
  - apply IH. now apply index_In in E.
  - intros H. injection H as <-. apply index_raises in E. now subst.
Qed.

(** X3.  When every line is a comment line (in particular when there is
    no line at all) the detector finds no line to stop at and raises
    [IndexError], whatever the start line. *)
Theorem detector_raises_on_comments_only (implementation : list str)
    (start_line : Z) :
  (forall line, In line implementation -> is_comment_line line = true) ->
  check_module_using_comment_header implementation start_line =
  Some (Raise IndexError).
Proof.
  intros Hall.
  destruct (check_module_using_comment_header implementation start_line)
    as [r|] eqn:E; [|now apply comment_header_total in E].
  f_equal. unfold check_module_using_comment_header in E.
  destruct (Py.index implementation (start_line - 1)) eqn:I.
  - apply (comment_header_loop_all_comments implementation Hall) in E;
      [exact E|]. now apply index_In in I.
  - injection E as <-. apply index_raises in I. now subst.
Qed.

Lemma detector_raises_on_comments_only_witness :
  check_module_using_comment_header [lit "# one"; lit "  # two"] 1 =
  Some (Raise IndexError).
Proof.
  apply (detector_raises_on_comments_only [lit "# one"; lit "  # two"] 1).
  intros line [<-|[<-|[]]]; reflexivity.
Defined.

(** ** Headers of classes and functions *)

(** A loop that appends to its list what each item contributes. *)
Lemma for_each_collect {A} (items : list A)
    (step : list str -> A -> result (list str)) (Q : A -> str -> Prop) :
  (forall acc x, In x items ->
     exists e, step acc x = Ok (acc ++ e) /\
               forall name, In name e <-> Q x name) ->
  forall acc,
    exists l,
      for_each items step acc = Ok l /\
      forall name, In name l <->
                   In name acc \/ exists x, In x items /\ Q x name.
Proof.
  induction items as [|x rest IH]; intros Hstep acc.
  - exists acc. split; [reflexivity|]. intros name. split; [auto|].
    intros [H|(x & [] & _)]. exact H.
  - destruct (Hstep acc x (or_introl eq_refl)) as (e & He & HQ).
    destruct (IH (fun a y Hy => Hstep a y (or_intror Hy)) (acc ++ e))
      as (l & Hl & Hin).
    exists l. split; [cbn [for_each]; rewrite He; exact Hl|].
    intros name. rewrite Hin, in_app_iff, HQ. split.
    + intros [[H|H]|(y & Hy & H)]; [now left| |].
      * right. exists x. split; [now left|exact H].
      * right. exists y. split; [now right|exact H].
    + intros [H|(y & [<-|Hy] & H)]; [now left; left| |].
      * left. now right.
      * right. now exists y.
Qed.

(** X4.  On a file whose class definitions stand on lines of the file
    that are not comment lines, the class check returns its list, and a
    name is in the list exactly when some class of that name has no
    docstring (or an empty one) and the line at index [lineno - 2], the
    line above its definition, is not a comment line. *)
Theorem class_without_header_iff (code_lines : list str) (t : tree) :
  (forall name lineno d,
     In (ClassDef name lineno d) (walk t) ->
     exists def_line,
       (1 <= lineno)%Z /\
       Py.index code_lines (lineno - 1) = Ok def_line /\
       is_comment_line def_line = false) ->
  exists l,
    check_class_headers code_lines (Ok t) = Ok l /\
    forall name,
      In name l <->
      exists lineno d above,
        In (ClassDef name lineno d) (walk t) /\
        truthy d = false /\
        Py.index code_lines (lineno - 1 - 1) = Ok above /\
        is_comment_line above = false.
Proof.
  intros Hwf. unfold check_class_headers. cbn [bind].
  destruct (for_each_collect (walk t) (class_headers_step code_lines)
              (fun n name =>
                 exists lineno d above,
                   n = ClassDef name lineno d /\ truthy d = false /\
                   Py.index code_lines (lineno - 1 - 1) = Ok above /\
                   is_comment_line above = false)) with (acc := @nil str)
    as (l & Hl & Hin).
  - intros acc n Hn.
    destruct n as [| name lineno d | |];
      try (exists []; rewrite app_nil_r; split; [reflexivity|];
           intros name'; split; [intros []|];
           intros (? & ? & ? & E & _); discriminate E).
    destruct (Hwf name lineno d Hn) as (def_line & H1 & Hd & Hc).
    destruct (index_in_range code_lines (lineno - 1 - 1)) as [above Ha].
    { apply index_Ok_bounds in Hd. lia. }
    unfold class_headers_step.
    rewrite (comment_header_above code_lines (lineno - 1) def_line above
               Hd ltac:(lia) Hc Ha). cbn [bind].
    destruct (truthy d) eqn:Ht; destruct (is_comment_line above) eqn:Hca;
      cbn [negb andb].
    4:{ exists [name]. split; [reflexivity|]. intros name'. split.
        - intros [<-|[]]. now exists lineno, d, above.
        - intros (? & ? & ? & E & _). injection E as -> _ _. now left. }
    all: exists []; rewrite app_nil_r; split; [reflexivity|];
      intros name'; split; [intros []|];
      intros (? & ? & above' & E & Ht' & Ha' & Hca');
      injection E as _ <- <-; congruence.
  - exists l. split; [exact Hl|]. intros name. rewrite Hin. split.
    + intros [[]|(n & Hn & lineno & d & above & -> & H)].
      now exists lineno, d, above.
    + intros (lineno & d & above & Hn & H). right.
      exists (ClassDef name lineno d). split; [exact Hn|].
      now exists lineno, d, above.
Qed.

Lemma class_without_header_iff_witness :
  exists l,
    check_class_headers two_classes (Ok two_classes_tree) = Ok l /\
    forall name,
      In name l <->
      exists lineno d above,
        In (ClassDef name lineno d) (walk two_classes_tree) /\
        truthy d = false /\
        Py.index two_classes (lineno - 1 - 1) = Ok above /\
        is_comment_line above = false.
Proof.
  apply (class_without_header_iff two_classes two_classes_tree).
  intros name lineno d [H|[H|[H|[H|[H|[]]]]]]; try discriminate H;
    injection H as <- <- <-; eexists; (split; [lia|split; reflexivity]).
Defined.

(** X5.  On a file whose function definitions stand on lines of the file
    that are not comment lines, a name is in the list of functions without
    header exactly when some function of that name has a definition line
    without the text [def __], no docstring (or an empty one), and a line
    above it that is not a comment line. *)
Theorem function_without_header_iff (code_lines : list str) (t : tree) :
  (forall name lineno e d,
     In (FunctionDef name lineno e d) (walk t) ->
     exists def_line,
       (1 <= lineno)%Z /\
       Py.index code_lines (lineno - 1) = Ok def_line /\
       is_comment_line def_line = false) ->
  exists l,
    check_functions_headers code_lines (Ok t) = Ok l /\
    forall name,
      In name l <->
      exists lineno e d def_line above,
        In (FunctionDef name lineno e d) (walk t) /\
        Py.index code_lines (lineno - 1) = Ok def_line /\
        Py.contains (lit "def __") def_line = false /\
        truthy d = false /\
        Py.index code_lines (lineno - 1 - 1) = Ok above /\
        is_comment_line above = false.
Proof.
  intros Hwf. unfold check_functions_headers. cbn [bind].
  destruct (for_each_collect (walk t) (functions_headers_step code_lines)
              (fun n name =>
                 exists lineno e d def_line above,
                   n = FunctionDef name lineno e d /\
                   Py.index code_lines (lineno - 1) = Ok def_line /\
                   Py.contains (lit "def __") def_line = false /\
                   truthy d = false /\
                   Py.index code_lines (lineno - 1 - 1) = Ok above /\
                   is_comment_line above = false)) with (acc := @nil str)
    as (l & Hl & Hin).
  - intros acc n Hn.
    destruct n as [name lineno e d | | |];
      try (exists []; rewrite app_nil_r; split; [reflexivity|];
           intros name'; split; [intros []|];
           intros (? & ? & ? & ? & ? & E & _); discriminate E).
    destruct (Hwf name lineno e d Hn) as (def_line & H1 & Hd & Hc).
    destruct (index_in_range code_lines (lineno - 1 - 1)) as [above Ha].
    { apply index_Ok_bounds in Hd. lia. }
    unfold functions_headers_step. rewrite Hd. cbn [bind].
    destruct (Py.contains (lit "def __") def_line) eqn:Hdu.
    { exists []. rewrite app_nil_r. split; [reflexivity|].
      intros name'. split; [intros []|].
      intros (? & ? & ? & def_line' & ? & E & Hd' & Hdu' & _).
      injection E as _ <- _ _. congruence. }
    rewrite (comment_header_above code_lines (lineno - 1) def_line above
               Hd ltac:(lia) Hc Ha). cbn [bind].
    destruct (truthy d) eqn:Ht; destruct (is_comment_line above) eqn:Hca;
      cbn [negb andb].
    4:{ exists [name]. split; [reflexivity|]. intros name'. split.
        - intros [<-|[]]. now exists lineno, e, d, def_line, above.
        - intros (? & ? & ? & ? & ? & E & _). injection E as -> _ _ _.
          now left. }
    all: exists []; rewrite app_nil_r; split; [reflexivity|];
      intros name'; split; [intros []|];
      intros (? & ? & ? & ? & above' & E & _ & _ & Ht' & Ha' & Hca');
      injection E as _ <- _ <-; congruence.
  - exists l. split; [exact Hl|]. intros name. rewrite Hin. split.
    + intros [[]|(n & Hn & lineno & e & d & def_line & above & -> & H)].
      now exists lineno, e, d, def_line, above.
    + intros (lineno & e & d & def_line & above & Hn & H). right.
      exists (FunctionDef name lineno e d). split; [exact Hn|].
      now exists lineno, e, d, def_line, above.
Qed.

Lemma function_without_header_iff_witness :
  exists l,
    check_functions_headers three_functions (Ok three_functions_tree) = Ok l /\
    forall name,
      In name l <->
      exists lineno e d def_line above,
        In (FunctionDef name lineno e d) (walk three_functions_tree) /\
        Py.index three_functions (lineno - 1) = Ok def_line /\
        Py.contains (lit "def __") def_line = false /\
        truthy d = false /\
        Py.index three_functions (lineno - 1 - 1) = Ok above /\
        is_comment_line above = false.
Proof.
  apply (function_without_header_iff three_functions three_functions_tree).
  intros name lineno e d [H|[H|[H|[H|[]]]]]; try discriminate H;
    injection H as <- <- <- <-; eexists; (split; [lia|split; reflexivity]).
Defined.

(** ** Variable names, continued *)

Lemma search_assigned_name_needs_equals (line : str) :
  ~ In "="%char line -> Re.search ASSIGNED_NAME line = None.
Proof.
  intros H. destruct (Re.search ASSIGNED_NAME line) as [f|] eqn:E;
    [|reflexivity].
  exfalso. apply search_assigned_name_first in E.
  destruct E as (pre & ws & post & (Hline & _) & _).
  apply H. rewrite Hline. rewrite !in_app_iff. right. right. right. now left.
Qed.

(** X6.  A line that holds no [=] sign is never in the list of long
    variable names. *)
Theorem line_without_equals_never_recorded (lines : list str) (i : nat)
    (line : str) :
  nth_error lines i = Some line ->
  ~ In "="%char line ->
  ~ In (i + 1) (check_implementation_variable_length lines).
Proof.
  intros Hi H. apply (variable_length_no_match lines i line Hi).
  now apply search_assigned_name_needs_equals.
Qed.

Lemma line_without_equals_never_recorded_witness :
  ~ In 1 (check_implementation_variable_length
            [lit "return a_name_that_is_much_longer_than_allowed";
             lit "a_name_that_is_much_longer_than_allowed = 1"]).
Proof.
  apply (line_without_equals_never_recorded _ 0
           (lit "return a_name_that_is_much_longer_than_allowed"));
    [reflexivity|].
  intros H. vm_compute in H. intuition discriminate.
Defined.

(** ** Order of the recorded line numbers *)

Section EnumerateOrder.

Variable step : list nat -> nat -> str -> list nat.
Variable entry : nat -> str -> list nat.
Hypothesis step_appends :
  forall acc i line, step acc i line = acc ++ entry i line.
Hypothesis entry_own_number :
  forall i line, entry i line = [] \/ entry i line = [i + 1].

Lemma for_enumerate_sorted (lines : list str) :
  forall k, StronglySorted lt (for_enumerate step k lines []).
Proof.
  induction lines as [|line rest IH]; intros k; simpl.
  - constructor.
  - rewrite (for_enumerate_entries step entry step_appends), step_appends.
    simpl. destruct (entry_own_number k line) as [E|E]; rewrite E; simpl.
    + apply IH.
    + constructor; [apply IH|]. apply Forall_forall. intros n Hn.
      apply (for_enumerate_above step entry step_appends entry_own_number)
        in Hn. lia.
Qed.

Lemma for_enumerate_within (lines : list str) (k n : nat) :
  In n (for_enumerate step k lines []) -> k < n <= k + length lines.
Proof.
  intros H. apply (for_enumerate_In step entry step_appends) in H.
  destruct H as (j & line & Hj & H).
  assert (j < length lines) by (apply nth_error_Some; congruence).
  destruct (entry_own_number (k + j) line) as [E|E]; rewrite E in H.
  - destruct H.
  - destruct H as [<-|[]]. lia.
Qed.

End EnumerateOrder.

(** X7.  The list of long lines and the list of long variable names both
    hold line numbers of the file, between 1 and the number of lines, in
    strictly increasing order. *)
Theorem line_numbers_increase_within_file (lines : list str) :
  (StronglySorted lt (check_implementation_line_length lines) /\
   forall n, In n (check_implementation_line_length lines) ->
             1 <= n <= length lines) /\
  (StronglySorted lt (check_implementation_variable_length lines) /\
   forall n, In n (check_implementation_variable_length lines) ->
             1 <= n <= length lines).
Proof.
  split; split.
  - apply (for_enumerate_sorted _ _ line_length_step_appends
             line_length_entry_own).
  - intros n H.
    apply (for_enumerate_within _ _ line_length_step_appends
             line_length_entry_own) in H. lia.
  - apply (for_enumerate_sorted _ _ variable_length_step_appends
             variable_length_entry_own).
  - intros n H.
    apply (for_enumerate_within _ _ variable_length_step_appends
             variable_length_entry_own) in H. lia.
Qed.

(** ** Removing docstrings *)

Lemma m_q3 g prev s pos :
  Re.m [Re.Chr quote; Re.Chr quote; Re.Chr quote] g prev s pos =
  if starts3 s then Some (g, pos + 3) else None.
Proof.
  unfold starts3. cbn [Re.m].
  destruct s as [|a [|b [|c s]]];
    repeat (destruct (Ascii.eqb _ quote)); cbn [andb]; try reflexivity.
  do 2 f_equal. lia.
Qed.

Lemma lazy_q3 g (s : str) :
  forall prev pos,
    Re.lazy Re.dotall
      (Re.m [Re.Chr quote; Re.Chr quote; Re.Chr quote] g) prev s pos =
    option_map (fun n => (g, pos + n + 3)) (find3 s).
Proof.
  induction s as [|c s IH]; intros prev pos.
  - cbn [Re.lazy find3]. now rewrite m_q3.
  - cbn [Re.lazy find3]. rewrite m_q3.
    destruct (starts3 (c :: s)).
    + cbn [option_map]. do 2 f_equal. lia.
    + unfold Re.dotall at 1. rewrite IH.
      destruct (find3 s); cbn [option_map]; [|reflexivity].
      do 2 f_equal. lia.
Qed.

(** At any position, the pattern of docstrings matches the block that
    starts there, if there is one. *)
Lemma m_docstring g prev s pos :
  Re.m DOCSTRING g prev s pos =
  option_map (fun n => (g, pos + n)) (docstring_length s).
Proof.
  unfold docstring_length. destruct (starts3 s) eqn:E.
  - unfold starts3 in E. destruct s as [|a [|b [|c s]]]; try discriminate.
    apply andb_true_iff in E. destruct E as [E Ec].
    apply andb_true_iff in E. destruct E as [Ea Eb].
    apply Ascii.eqb_eq in Ea, Eb, Ec. subst a b c.
    unfold DOCSTRING. rewrite !m_chr_hit.
    change (Re.m (Re.LazyStar Re.dotall ::
                  [Re.Chr quote; Re.Chr quote; Re.Chr quote]) g
              (Some quote) s (S (S (S pos))))
      with (Re.lazy Re.dotall
              (Re.m [Re.Chr quote; Re.Chr quote; Re.Chr quote] g)
              (Some quote) s (S (S (S pos)))).
    rewrite lazy_q3. cbn [skipn].
    destruct (find3 s); cbn [option_map]; [|reflexivity].
    do 2 f_equal. lia.
  - cbn [option_map].
    destruct (Re.m DOCSTRING g prev s pos) eqn:M; [|reflexivity].
    exfalso. unfold DOCSTRING in M.
    do 3 (apply m_chr in M; destruct M as (? & -> & M)).
    cbn [starts3] in E. rewrite Ascii.eqb_refl in E. discriminate E.
Qed.

Lemma docstring_length_ge (s : str) (n : nat) :
  docstring_length s = Some n -> 6 <= n.
Proof.
  unfold docstring_length. destruct (starts3 s); [|discriminate].
  destruct (find3 _); [|discriminate]. intros H. injection H as <-. lia.
Qed.

(** The removal does not depend on where the text stands. *)
Lemma sub_docstring_shift (s : str) :
  forall prev pos prev' pos' k,
    Re.sub_from DOCSTRING prev s pos k = Re.sub_from DOCSTRING prev' s pos' k.
Proof.
  induction s as [|c s IH]; intros prev pos prev' pos' k; [reflexivity|].
  cbn [Re.sub_from]. destruct k as [|k]; [|apply IH].
  rewrite !m_docstring.
  destruct (docstring_length (c :: s)) as [n|] eqn:E; cbn [option_map].
  - apply docstring_length_ge in E.
    replace (pos <? pos + n) with true by (symmetry; apply Nat.ltb_lt; lia).
    replace (pos' <? pos' + n) with true by (symmetry; apply Nat.ltb_lt; lia).
    replace (pos + n - pos - 1) with (n - 1) by lia.
    replace (pos' + n - pos' - 1) with (n - 1) by lia.
    apply IH.
  - f_equal. apply IH.
Qed.

Lemma sub_from_skip (r : Re.pattern) (a : str) :
  forall b prev pos,
    Re.sub_from r prev (a ++ b) pos (length a) =
    Re.sub_from r (last_of prev a) b (pos + length a) 0.
Proof.
  induction a as [|c a IH]; intros b prev pos; simpl.
  - now rewrite Nat.add_0_r.
  - rewrite IH. now rewrite Nat.add_succ_r.
Qed.

Lemma starts3_not_quote (c : ascii) (s : str) :
  c <> quote -> starts3 (c :: s) = false.
Proof.
  intros H. unfold starts3. destruct s as [|b [|d s]]; try reflexivity.
  apply Ascii.eqb_neq in H. now rewrite H.
Qed.

Lemma docstring_length_not_quote (c : ascii) (s : str) :
  c <> quote -> docstring_length (c :: s) = None.
Proof.
  intros H. unfold docstring_length. now rewrite starts3_not_quote.
Qed.

Lemma sub_docstring_before (pre : str) :
  ~ In quote pre ->
  forall rest prev pos,
    Re.sub_from DOCSTRING prev (pre ++ rest) pos 0 =
    pre ++ Re.sub_from DOCSTRING None rest 0 0.
Proof.
  intros H. induction pre as [|c pre IH]; intros rest prev pos.
  - apply sub_docstring_shift.
  - cbn [app Re.sub_from]. rewrite m_docstring.
    rewrite docstring_length_not_quote by (intros ->; apply H; now left).
    cbn [option_map]. f_equal. apply IH. intros Hin. apply H. now right.
Qed.

Lemma find3_closing (body post : str) :
  ~ In quote body -> find3 (body ++ q3 ++ post) = Some (length body).
Proof.
  intros H. induction body as [|c body IH].
  - cbn [app q3 find3 starts3]. now rewrite Ascii.eqb_refl.
  - cbn [app find3]. rewrite starts3_not_quote
      by (intros ->; apply H; now left).
    rewrite IH by (intros Hin; apply H; now right). reflexivity.
Qed.

Lemma find3_none (body : str) : ~ In quote body -> find3 body = None.
Proof.
  intros H. induction body as [|c body IH]; [reflexivity|].
  cbn [find3]. rewrite starts3_not_quote by (intros ->; apply H; now left).
  rewrite IH by (intros Hin; apply H; now right). reflexivity.
Qed.

Lemma sub_from_step (r : Re.pattern) prev c s pos :
  Re.sub_from r prev (c :: s) pos 0 =
  match Re.m r (0, 0) prev (c :: s) pos with
  | Some (_, e) =>
      if pos <? e then Re.sub_from r (Some c) s (S pos) (e - pos - 1)
      else c :: Re.sub_from r (Some c) s (S pos) 0
  | None => c :: Re.sub_from r (Some c) s (S pos) 0
  end.
Proof. reflexivity. Qed.

Lemma docstring_length_block (body post : str) :
  ~ In quote body ->
  docstring_length (q3 ++ body ++ q3 ++ post) = Some (length body + 6).
Proof.
  intros H. unfold docstring_length.
  change (q3 ++ body ++ q3 ++ post)
    with (quote :: quote :: quote :: (body ++ q3 ++ post)).
  cbn [starts3 skipn]. rewrite !Ascii.eqb_refl. cbn [andb].
  now rewrite find3_closing.
Qed.

(** X8.  A triple-quoted block whose inside holds no double quote is
    removed whole, newlines included, and the removal goes on after it;
    what stands before the block, if it holds no double quote, stays. *)
Theorem remove_docstring_drops_block (pre body post : str) :
  ~ In quote pre ->
  ~ In quote body ->
  remove_docstring (pre ++ q3 ++ body ++ q3 ++ post) =
  pre ++ remove_docstring post.
Proof.
  intros Hpre Hbody. unfold remove_docstring, Re.sub_empty.
  rewrite sub_docstring_before by exact Hpre. f_equal.
  pose proof (docstring_length_block body post Hbody) as Hlen.
  change (q3 ++ body ++ q3 ++ post)
    with (quote :: (quote :: quote :: body ++ q3 ++ post)) in *.
  rewrite sub_from_step, m_docstring, Hlen. cbn [option_map].
  replace (0 <? 0 + (length body + 6)) with true
    by (symmetry; apply Nat.ltb_lt; lia).
  replace (0 + (length body + 6) - 0 - 1)
    with (length (quote :: quote :: body ++ q3))
    by (cbn [length]; rewrite length_app; cbn [q3 length]; lia).
  replace (quote :: quote :: body ++ q3 ++ post)
    with ((quote :: quote :: body ++ q3) ++ post)
    by (cbn [app]; now rewrite <- app_assoc).
  rewrite sub_from_skip. apply sub_docstring_shift.
Qed.

Lemma remove_docstring_drops_block_witness :
  remove_docstring documented_function =
  lit "def f():
    " ++ remove_docstring (lit "
    return 1").
Proof.
  apply (remove_docstring_drops_block (lit "def f():
    ") (lit "Adds.
    Twice.
    ") (lit "
    return 1"));
    intros H; vm_compute in H; intuition discriminate.
Defined.

(** X9.  A text that holds no double quote is returned as it is: blocks
    written with single quotes are not removed. *)
Theorem remove_docstring_keeps_text_without_quotes (s : str) :
  ~ In quote s -> remove_docstring s = s.
Proof.
  intros H. unfold remove_docstring, Re.sub_empty.
  rewrite <- (app_nil_r s) at 1. rewrite sub_docstring_before by exact H.
  apply app_nil_r.
Qed.

Lemma remove_docstring_keeps_text_without_quotes_witness :
  remove_docstring (lit "def f():
    '''Adds.'''
    return 1") =
  lit "def f():
    '''Adds.'''
    return 1".
Proof.
  apply remove_docstring_keeps_text_without_quotes.
  intros H. vm_compute in H. intuition discriminate.
Defined.

Lemma starts3_second (a : ascii) (body : str) :
  ~ In quote body -> starts3 (a :: body) = false.
Proof.
  intros H. unfold starts3. destruct body as [|b [|c body]]; try reflexivity.
  assert (E : Ascii.eqb b quote = false).
  { apply Ascii.eqb_neq. intros ->. apply H. now left. }
  rewrite E. now rewrite andb_false_r.
Qed.

Lemma starts3_third (a b : ascii) (body : str) :
  ~ In quote body -> starts3 (a :: b :: body) = false.
Proof.
  intros H. unfold starts3. destruct body as [|c body]; [reflexivity|].
  assert (E : Ascii.eqb c quote = false).
  { apply Ascii.eqb_neq. intros ->. apply H. now left. }
  rewrite E. now rewrite andb_false_r.
Qed.

(** X10.  A triple quote that is never closed removes nothing: the text
    is returned as it is. *)
Theorem remove_docstring_keeps_unclosed_block (pre body : str) :
  ~ In quote pre ->
  ~ In quote body ->
  remove_docstring (pre ++ q3 ++ body) = pre ++ q3 ++ body.
Proof.
  intros Hpre Hbody. unfold remove_docstring, Re.sub_empty.
  rewrite sub_docstring_before by exact Hpre. f_equal.
  assert (Hb : forall prev pos,
             Re.sub_from DOCSTRING prev body pos 0 = body).
  { intros prev pos. rewrite <- (app_nil_r body) at 1.
    rewrite sub_docstring_before by exact Hbody. apply app_nil_r. }
  assert (H1 : forall prev pos,
             Re.sub_from DOCSTRING prev (quote :: body) pos 0 =
             quote :: body).
  { intros prev pos. rewrite sub_from_step, m_docstring.
    replace (docstring_length (quote :: body)) with (@None nat).
    - cbn [option_map]. f_equal. apply Hb.
    - unfold docstring_length. now rewrite starts3_second. }
  assert (H2 : forall prev pos,
             Re.sub_from DOCSTRING prev (quote :: quote :: body) pos 0 =
             quote :: quote :: body).
  { intros prev pos. rewrite sub_from_step, m_docstring.
    replace (docstring_length (quote :: quote :: body)) with (@None nat).
    - cbn [option_map]. f_equal. apply H1.
    - unfold docstring_length. now rewrite starts3_third. }
  change (q3 ++ body) with (quote :: quote :: quote :: body).
  rewrite sub_from_step, m_docstring.
  replace (docstring_length (quote :: quote :: quote :: body))
    with (@None nat).
  - cbn [option_map]. f_equal. apply H2.
  - unfold docstring_length. cbn [starts3 skipn].
    rewrite !Ascii.eqb_refl. cbn [andb].
    now rewrite find3_none by exact Hbody.
Qed.

Lemma remove_docstring_keeps_unclosed_block_witness :
  remove_docstring (lit "x = " ++ q3 ++ lit "never closed
y = 2") = lit "x = " ++ q3 ++ lit "never closed
y = 2".
Proof.
  apply (remove_docstring_keeps_unclosed_block (lit "x = ")
           (lit "never closed
y = 2"));
    intros H; vm_compute in H; intuition discriminate.
Defined.

(** ** Function length, continued *)

(** X11.  A function whose node carries no [end_lineno] has an empty span
    and is never added to the list of long functions. *)
Theorem function_without_end_never_long (code_lines acc : list str)
    (name : str) (lineno : Z) (docstring : option str) :
  long_functions_step code_lines acc (FunctionDef name lineno None docstring)
  = acc.
Proof.
  unfold long_functions_step, measured_code, Py.slice. cbv zeta.
  rewrite Nat.sub_diag. reflexivity.
Qed.

Lemma sub_from_count (c : ascii) (r : Re.pattern) (s : str) :
  forall prev pos k,
    Py.count c (Re.sub_from r prev s pos k) <= Py.count c s.
Proof.
  unfold Py.count.
  induction s as [|x s IH]; intros prev pos k; [reflexivity|].
  cbn [Re.sub_from].
  assert (Hdrop : forall prev' pos' k',
            length (filter (Ascii.eqb c) (Re.sub_from r prev' s pos' k')) <=
            length (filter (Ascii.eqb c) (x :: s))).
  { intros. specialize (IH prev' pos' k'). simpl.
    destruct (Ascii.eqb c x); simpl; lia. }
  assert (Hkeep : forall prev' pos' k',
            length (filter (Ascii.eqb c)
                      (x :: Re.sub_from r prev' s pos' k')) <=
            length (filter (Ascii.eqb c) (x :: s))).
  { intros. specialize (IH prev' pos' k'). simpl.
    destruct (Ascii.eqb c x); simpl; lia. }
  destruct k; [|apply Hdrop].
  destruct (Re.m r (0, 0) prev (x :: s) pos) as [[g e]|]; [|apply Hkeep].
  destruct (pos <? e); [apply Hdrop|apply Hkeep].
Qed.

Lemma filter_length {A} (f : A -> bool) (l : list A) :
  length (filter f l) <= length l.
Proof.
  induction l as [|x l IH]; simpl; [lia|]. destruct (f x); simpl; lia.
Qed.

Lemma slice_In {A} (l : list A) (a b : Z) (x : A) :
  In x (Py.slice l a b) -> In x l.
Proof.
  unfold Py.slice. cbv zeta. intros H.
  rewrite <- (firstn_skipn (Z.to_nat (Py.clamp (Z.of_nat (length l)) a)) l).
  apply in_or_app. right.
  set (t := skipn _ l) in *.
  rewrite <- (firstn_skipn
                (Z.to_nat (Py.clamp (Z.of_nat (length l)) b) -
                 Z.to_nat (Py.clamp (Z.of_nat (length l)) a)) t).
  apply in_or_app. now left.
Qed.

Lemma slice_length {A} (l : list A) (a b : Z) :
  (0 <= a)%Z -> (0 <= b)%Z ->
  length (Py.slice l a b) <= Z.to_nat (b - a).
Proof.
  intros Ha Hb. unfold Py.slice. cbv zeta.
  etransitivity; [apply firstn_le_length|].
  unfold Py.clamp.
  destruct (a <? 0)%Z eqn:E1; [apply Z.ltb_lt in E1; lia|].
  destruct (b <? 0)%Z eqn:E2; [apply Z.ltb_lt in E2; lia|].
  lia.
Qed.

(** X12.  A function that spans at most 41 lines of a file (its lines
    holding no newline, as [splitlines] returns them) is never added to
    the list of long functions, whatever its lines hold. *)
Theorem function_of_41_lines_never_long (code_lines acc : list str)
    (name : str) (lineno e : Z) (docstring : option str) :
  (forall line, In line code_lines -> ~ In newline line) ->
  (1 <= lineno)%Z -> (0 <= e)%Z -> (e - lineno < 41)%Z ->
  long_functions_step code_lines acc
    (FunctionDef name lineno (Some e) docstring) = acc.
Proof.
  intros Hnl H1 H0 Hlen. unfold long_functions_step, measured_code.
  cbv zeta. rewrite pop_comment_lines_all.
  set (span := Py.slice code_lines (lineno - 1) e).
  replace (40 <? _) with false; [reflexivity|].
  symmetry. apply Nat.ltb_ge.
  etransitivity; [apply sub_from_count|].
  rewrite count_join.
  - pose proof (filter_length (fun line => negb (is_comment_line line)) span).
    pose proof (slice_length code_lines (lineno - 1) e ltac:(lia) H0).
    unfold code_of. fold span in H2. lia.
  - intros p Hp. apply Hnl. unfold code_of in Hp.
    apply filter_In in Hp. destruct Hp as [Hp _].
    now apply slice_In in Hp.
Qed.

Lemma function_of_41_lines_never_long_witness :
  long_functions_step function_of_41_lines []
    (FunctionDef (lit "g") 1 (Some 41%Z) None) = [].
Proof.
  apply (function_of_41_lines_never_long function_of_41_lines []
           (lit "g") 1 41 None); try lia.
  intros line Hin.
  assert (H : line = lit "def g():" \/ line = lit "    x = 1").
  { unfold function_of_41_lines in Hin. destruct Hin as [<-|Hin];
      [now left|]. apply repeat_spec in Hin. now right. }
  destruct H as [-> | ->]; intros H; vm_compute in H; intuition discriminate.
Defined.

(** ** The report aggregator, continued *)

Lemma report_category_frame (src fl cb : string) (lab : item -> str)
    (info : dict (option (list item))) (tv tv' : dict value) (k : string) :
  report_category src fl cb lab info tv = Ok tv' ->
  k <> fl -> k <> cb ->
  dict_get k tv' = dict_get k tv.
Proof.
  unfold report_category. intros H Hfl Hcb.
  destruct (dict_get src info) as [[items|]|]; cbn [bind] in H;
    try discriminate H.
  refine (for_each_invariant (fun d => dict_get k d = dict_get k tv)
            _ _ _ tv tv' eq_refl H).
  intros acc x acc' _ Hacc Hstep. cbv zeta in Hstep.
  unfold dict_add in Hstep.
  destruct (dict_get cb (dict_set fl (VBool false) acc)) as [[b|s]|];
    cbn [bind] in Hstep; try discriminate Hstep.
  injection Hstep as <-.
  now rewrite !dict_get_set_other by assumption.
Qed.

(** The aggregation changes no variable but the flags and the checkbox
    strings of the categories, and leaves the violation lists alone. *)
Lemma generate_frame (g g' : globals) :
  generate_validation_output g = Ok g' ->
  specific_file_information g' = specific_file_information g /\
  forall k, ~ In k (flat_map keys categories) ->
            dict_get k (template_variables g') =
            dict_get k (template_variables g).
Proof.
  rewrite generate_validation_output_loops. intros H.
  destruct (for_each categories (report (specific_file_information g))
              (template_variables g)) as [tv'|] eqn:E;
    cbn [bind] in H; [|discriminate H].
  injection H as <-. split; [reflexivity|]. intros k Hk.
  cbn [template_variables].
  refine (for_each_invariant
            (fun d => dict_get k d = dict_get k (template_variables g))
            _ _ _ _ tv' eq_refl E).
  intros acc c acc' Hc Hacc Hstep. rewrite <- Hacc.
  apply (report_category_frame _ _ _ _ _ _ _ _ Hstep);
    intros ->; apply Hk; apply in_flat_map; exists c;
    (split; [exact Hc|simpl; auto]).
Qed.

(** X13.  The aggregation changes no variable but the six flags and the
    six checkbox strings (the script name and the two file-level flags
    stay as they are), and leaves the violation lists as they are. *)
Theorem aggregation_touches_only_category_variables (g g' : globals) :
  generate_validation_output g = Ok g' ->
  specific_file_information g' = specific_file_information g /\
  forall k, ~ In k (flat_map keys categories) ->
            dict_get k (template_variables g') =
            dict_get k (template_variables g).
Proof. apply generate_frame. Qed.

Lemma aggregation_touches_only_category_variables_witness :
  exists g',
    generate_validation_output sample_globals = Ok g' /\
    dict_get "SCRIPT_NAME" (template_variables g') =
    Ok (VStr (lit "tool.py")).
Proof.
  destruct (generate_validation_output sample_globals) as [g'|e] eqn:E.
  - exists g'. split; [reflexivity|].
    destruct (aggregation_touches_only_category_variables sample_globals
                g' E) as [_ H].
    rewrite H; [reflexivity|]. simpl. intuition discriminate.
  - exfalso. vm_compute in E. discriminate E.
Defined.

(** X14.  The aggregation is not idempotent: run a second time without
    the variables being reset, it adds the checkbox lines of every
    category once more. *)
Theorem aggregation_twice_repeats_lines (g : globals) :
  (forall c, In c categories ->
     dict_get (checkboxes c) (template_variables g) = Ok (VStr [])) ->
  (forall c, In c categories ->
     exists items,
       dict_get (source c) (specific_file_information g) = Ok (Some items)) ->
  exists g1 g2,
    generate_validation_output g = Ok g1 /\
    generate_validation_output g1 = Ok g2 /\
    forall c items,
      In c categories ->
      dict_get (source c) (specific_file_information g) = Ok (Some items) ->
      dict_get (checkboxes c) (template_variables g1) =
        Ok (VStr (checkbox_lines (label c) items)) /\
      dict_get (checkboxes c) (template_variables g2) =
        Ok (VStr (checkbox_lines (label c) items ++
                  checkbox_lines (label c) items)).
Proof.
  intros Hfresh Hsrc.
  destruct (report_all_spec (specific_file_information g) categories
              categories_NoDup Hsrc (template_variables g))
    as (tv1 & Hrun1 & Hcats1 & _).
  { intros c Hc. exists []. now apply Hfresh. }
  destruct (report_all_spec (specific_file_information g) categories
              categories_NoDup Hsrc tv1)
    as (tv2 & Hrun2 & Hcats2 & _).
  { intros c Hc. destruct (Hsrc c Hc) as [items Hi].
    destruct (Hcats1 c items [] Hc Hi (Hfresh c Hc)) as [H _]. eauto. }
  exists {| template_variables := tv1;
            specific_file_information := specific_file_information g |},
         {| template_variables := tv2;
            specific_file_information := specific_file_information g |}.
  rewrite !generate_validation_output_loops.
  cbn [template_variables specific_file_information].
  rewrite Hrun1, Hrun2. cbn [bind].
  split; [reflexivity|]. split; [reflexivity|].
  intros c items Hc Hi.
  destruct (Hcats1 c items [] Hc Hi (Hfresh c Hc)) as [H1 _].
  destruct (Hcats2 c items _ Hc Hi H1) as [H2 _].
  now rewrite H1, H2.
Qed.

Lemma aggregation_twice_repeats_lines_witness :
  exists g1 g2,
    generate_validation_output sample_globals = Ok g1 /\
    generate_validation_output g1 = Ok g2 /\
    forall c items,
      In c categories ->
      dict_get (source c) (specific_file_information sample_globals) =
        Ok (Some items) ->
      dict_get (checkboxes c) (template_variables g1) =
        Ok (VStr (checkbox_lines (label c) items)) /\
      dict_get (checkboxes c) (template_variables g2) =
        Ok (VStr (checkbox_lines (label c) items ++
                  checkbox_lines (label c) items)).
Proof.
  apply (aggregation_twice_repeats_lines sample_globals).
  - intros c Hc.
    repeat (destruct Hc as [<-|Hc]; [reflexivity|]). destruct Hc.
  - intros c Hc.
    repeat (destruct Hc as [<-|Hc]; [eexists; reflexivity|]). destruct Hc.
Defined.

(** ** Writing the report *)

Lemma read_write_same (name content : str) (files : list (str * str)) :
  read_file name (write_file name content files) = Some content.
Proof.
  induction files as [|[n c] files IH]; simpl.
  - now destruct (list_eq_dec ascii_dec name name).
  - destruct (list_eq_dec ascii_dec name n) as [E|E]; simpl.
    + now destruct (list_eq_dec ascii_dec name name).
    + now destruct (list_eq_dec ascii_dec name n).
Qed.

Lemma read_write_other (name other content : str)
    (files : list (str * str)) :
  other <> name ->
  read_file other (write_file name content files) = read_file other files.
Proof.
  intros H. induction files as [|[n c] files IH]; simpl.
  - now destruct (list_eq_dec ascii_dec other name).
  - destruct (list_eq_dec ascii_dec name n) as [E|E]; simpl.
    + subst n. now destruct (list_eq_dec ascii_dec other name).
    + now rewrite IH.
Qed.

Lemma write_file_twice (name c1 c2 : str) (files : list (str * str)) :
  write_file name c2 (write_file name c1 files) = write_file name c2 files.
Proof.
  induction files as [|[n c] files IH]; simpl.
  - now destruct (list_eq_dec ascii_dec name name).
  - destruct (list_eq_dec ascii_dec name n) as [E|E]; simpl.
    + now destruct (list_eq_dec ascii_dec name name).
    + destruct (list_eq_dec ascii_dec name n); [contradiction|].
      now rewrite IH.
Qed.

Lemma write_validation_output_named (g : globals) (d : disk)
    (name tpl : str) :
  dict_get "SCRIPT_NAME" (template_variables g) = Ok (VStr name) ->
  template d = Some tpl ->
  write_validation_output {| vars := g; files := d |} =
  Ok {| vars := g;
        files := {| template := Some tpl;
                    output_dir_exists := true;
                    reports :=
                      write_file (report_name name)
                        (fill_template tpl (template_variables g))
                        (reports d) |} |}.
Proof.
  intros H1 H2. unfold write_validation_output. cbn [files vars].
  rewrite H2, H1. cbn [bind value_str]. reflexivity.
Qed.

(** X15.  A successful write needs the template and the script name; it
    changes no report variable and not the template, makes sure the output
    directory exists, stores the filled template under the name of the
    script followed by [_validation_output.md], and leaves every other
    report as it was. *)
Theorem write_adds_one_report (w w' : world) :
  write_validation_output w = Ok w' ->
  exists tpl script_name,
    template (files w) = Some tpl /\
    dict_get "SCRIPT_NAME" (template_variables (vars w)) = Ok script_name /\
    vars w' = vars w /\
    template (files w') = template (files w) /\
    output_dir_exists (files w') = true /\
    read_file (report_name (value_str script_name)) (reports (files w')) =
      Some (fill_template tpl (template_variables (vars w))) /\
    forall other,
      other <> report_name (value_str script_name) ->
      read_file other (reports (files w')) =
      read_file other (reports (files w)).
Proof.
  unfold write_validation_output. intros H.
  destruct (template (files w)) as [tpl|] eqn:Ht; [|discriminate H].
  destruct (dict_get "SCRIPT_NAME" (template_variables (vars w)))
    as [script_name|] eqn:Hs; cbn [bind] in H; [|discriminate H].
  injection H as <-. exists tpl, script_name.
  cbn [vars files template output_dir_exists reports].
  repeat split; auto.
  - apply read_write_same.
  - intros other Ho. now apply read_write_other.
Qed.

Lemma write_adds_one_report_witness :
  exists w',
    write_validation_output
      {| vars := sample_globals; files := blank_disk |} = Ok w' /\
    output_dir_exists (files w') = true /\
    read_file (lit "other.py_validation_output.md") (reports (files w')) =
      None.
Proof.
  destruct (write_validation_output
              {| vars := sample_globals; files := blank_disk |})
    as [w'|e] eqn:E.
  - exists w'. split; [reflexivity|].
    destruct (write_adds_one_report _ w' E)
      as (tpl & name & _ & Hn & _ & _ & Hd & _ & Ho).
    split; [exact Hd|]. rewrite Ho; [reflexivity|].
    cbn in Hn. injection Hn as <-. discriminate.
  - exfalso. vm_compute in E. discriminate E.
Defined.

Lemma startswith_placeholder (variable : string) (c : ascii) (s : str) :
  c <> "{"%char -> Py.startswith (placeholder variable) (c :: s) = false.
Proof.
  intros H. unfold placeholder.
  cbn [lit list_ascii_of_string app Py.startswith].
  replace (Ascii.eqb "{" c) with false; [reflexivity|].
  symmetry. apply Ascii.eqb_neq. congruence.
Qed.

Lemma replace_without_brace (variable : string) (new s : str) :
  ~ In "{"%char s -> replace (placeholder variable) new s = s.
Proof.
  unfold replace. induction s as [|c s IH]; intros H; [reflexivity|].
  cbn [replace_from].
  rewrite startswith_placeholder by (intros ->; apply H; now left).
  f_equal. apply IH. intros Hin. apply H. now right.
Qed.

(** X16.  A template that holds no opening brace holds no placeholder:
    it is written as it is, whatever the report variables are. *)
Theorem template_without_brace_is_kept (template_lines : str)
    (tv : dict value) :
  ~ In "{"%char template_lines ->
  fill_template template_lines tv = template_lines.
Proof.
  intros H. unfold fill_template.
  assert (Hfold :
    fold_left
      (fun template_lines '(variable, replacement) =>
         replace (placeholder variable) (replacement_of replacement)
           template_lines) tv template_lines = template_lines).
  { induction tv as [|[k v] tv IH]; [reflexivity|].
    cbn [fold_left]. now rewrite replace_without_brace. }
  rewrite Hfold.
  now rewrite !(replace_without_brace _ _ template_lines H).
Qed.

Lemma template_without_brace_is_kept_witness :
  fill_template (lit "# Report
nothing to fill in
") (template_variables sample_globals) = lit "# Report
nothing to fill in
".
Proof.
  apply template_without_brace_is_kept.
  intros H. vm_compute in H. intuition discriminate.
Defined.

(** ** The driver, continued *)

Lemma parse_python_file_writes (f : source_file) (w w' : world) :
  Py.readlines (text f) <> [] ->
  parse_python_file f w = Ok w' ->
  exists g,
    dict_get "SCRIPT_NAME" (template_variables g) = Ok (VStr (basename f)) /\
    forall w0,
      parse_python_file f w0 =
      write_validation_output {| vars := g; files := files w0 |}.
Proof.
  intros Hne. unfold parse_python_file.
  destruct (length (Py.readlines (text f)) =? 0) eqn:E0.
  { apply Nat.eqb_eq in E0. apply length_zero_iff_nil in E0. contradiction. }
  destruct (check_for_file_header _ _) as [header|];
    cbn [bind]; [|intros H; discriminate H].
  destruct (check_functions_less_than_40_lines _ _) as [long_functions|];
    cbn [bind]; [|intros H; discriminate H].
  destruct (check_functions_headers _ _) as [headless_functions|];
    cbn [bind]; [|intros H; discriminate H].
  destruct (check_class_headers _ _) as [headless_classes|];
    cbn [bind]; [|intros H; discriminate H].
  destruct (generate_validation_output _) as [g|] eqn:E5;
    cbn [bind]; [|intros H; discriminate H].
  intros _. exists g. split; [|reflexivity].
  apply generate_frame in E5. destruct E5 as [_ E5].
  rewrite E5; [reflexivity|]. simpl. intuition discriminate.
Qed.

(** X17.  The report of a file is named after the base name of the file
    alone: when a file is processed after another one of the same base
    name, the world is left exactly as if the earlier one had never been
    processed; its report is overwritten. *)
Theorem same_base_name_overwrites_report (f1 f2 : source_file)
    (w w1 w2 : world) :
  parse_python_file f1 w = Ok w1 ->
  parse_python_file f2 w1 = Ok w2 ->
  basename f1 = basename f2 ->
  Py.readlines (text f2) <> [] ->
  parse_python_file f2 w = Ok w2.
Proof.
  intros H1 H2 Hb Hne2.
  destruct (parse_python_file_writes f2 w1 w2 Hne2 H2) as (g2 & Hn2 & Hw2).
  rewrite Hw2 in *.
  destruct (Py.readlines (text f1)) as [|l1 ls1] eqn:E1.
  - unfold parse_python_file in H1. rewrite E1 in H1. cbn in H1.
    injection H1 as <-. exact H2.
  - assert (Hne1 : Py.readlines (text f1) <> []) by (rewrite E1; discriminate).
    destruct (parse_python_file_writes f1 w w1 Hne1 H1) as (g1 & Hn1 & Hw1).
    rewrite Hw1 in H1.
    destruct (template (files w)) as [tpl|] eqn:Ht.
    2:{ unfold write_validation_output in H1. cbn [files] in H1.
        rewrite Ht in H1. discriminate H1. }
    rewrite (write_validation_output_named g1 (files w) _ tpl Hn1 Ht) in H1.
    injection H1 as <-. cbn [files] in H2.
    erewrite write_validation_output_named in H2;
      [|exact Hn2|reflexivity].
    rewrite (write_validation_output_named g2 (files w) _ tpl Hn2 Ht).
    rewrite <- H2. cbn [reports]. rewrite Hb.
    now rewrite write_file_twice.
Qed.

Lemma same_base_name_overwrites_report_witness :
  exists w1 w2,
    parse_python_file first_tool blank_world = Ok w1 /\
    parse_python_file second_tool w1 = Ok w2 /\
    parse_python_file second_tool blank_world = Ok w2.
Proof.
  destruct (parse_python_file first_tool blank_world) as [w1|e] eqn:E1.
  2:{ exfalso. vm_compute in E1. discriminate E1. }
  destruct (parse_python_file second_tool w1) as [w2|e] eqn:E2.
  2:{ exfalso. revert E2. vm_compute in E1. injection E1 as <-.
      vm_compute. discriminate. }
  exists w1, w2. split; [reflexivity|]. split; [exact E2|].
  apply (same_base_name_overwrites_report first_tool second_tool
           blank_world w1 w2 E1 E2 eq_refl).
  vm_compute. discriminate.
Defined.

Lemma for_each_app {A St} (a b : list A) (step : St -> A -> result St)
    (acc : St) :
  for_each (a ++ b) step acc =
  (acc' <- for_each a step acc ;; for_each b step acc').
Proof.
  revert acc. induction a as [|x a IH]; intros acc; [reflexivity|].
  cbn [app for_each]. destruct (step acc x); cbn [bind]; [apply IH|reflexivity].
Qed.

(** X18.  An exception raised while a file is processed ends the run of
    the directory with that exception, whatever files come after it. *)
Theorem exception_ends_the_run (before after : list source_file)
    (f : source_file) (w w1 : world) (e : exn) :
  parse_directory before w = Ok w1 ->
  parse_python_file f w1 = Raise e ->
  parse_directory (before ++ f :: after) w = Raise e.
Proof.
  unfold parse_directory. intros H1 H2.
  rewrite for_each_app, H1. cbn [bind for_each]. now rewrite H2.
Qed.

Lemma exception_ends_the_run_witness :
  parse_directory ([empty_file] ++ comments_only_file :: [first_tool])
    blank_world = Raise IndexError.
Proof.
  apply (exception_ends_the_run [empty_file] [first_tool] comments_only_file
           blank_world blank_world IndexError); reflexivity.
Defined.

(** X19.  A directory whose files all have an empty text is processed
    without any change to the template, the output directory or the
    reports. *)
Theorem empty_files_leave_disk_unchanged (python_files : list source_file) :
  (forall f, In f python_files -> text f = []) ->
  forall w, exists w',
    parse_directory python_files w = Ok w' /\ files w' = files w.
Proof.
  unfold parse_directory.
  induction python_files as [|f rest IH]; intros Hall w.
  - now exists w.
  - cbn [for_each]. unfold parse_python_file at 1.
    rewrite (Hall f (or_introl eq_refl)). cbn [Py.readlines Py.readlines_from
      length Nat.eqb bind].
    destruct (IH (fun f' H => Hall f' (or_intror H))
                {| vars := set_data_for_parsing; files := files w |})
      as (w' & Hrun & Hfiles).
    exists w'. split; [exact Hrun|exact Hfiles].
Qed.

Lemma empty_files_leave_disk_unchanged_witness :
  exists w',
    parse_directory [empty_file; empty_file] blank_world = Ok w' /\
    files w' = files blank_world.
Proof.
  apply (empty_files_leave_disk_unchanged [empty_file; empty_file]).
  intros f [<-|[<-|[]]]; reflexivity.
Defined.

(** ** Wildcard imports, continued *)

Lemma comment_line_not_plain_import (line : str) :
  is_comment_line line = true -> plain_import line = false.
Proof.
  unfold is_comment_line, plain_import.
  destruct (Py.strip line) as [|c t]; [discriminate|].
  cbn [lit list_ascii_of_string Py.startswith].
  destruct (Ascii.eqb "#" c) eqn:E; [|discriminate].
  apply Ascii.eqb_eq in E. subst c. reflexivity.
Qed.

(** X20.  Comment lines are not exempt from the import check: a comment
    line that has the form [from <module> import ...] and holds [import *]
    adds its module to the list of wildcard imports. *)
Theorem commented_wildcard_import_is_reported (lines : list str)
    (line module : str) :
  In line lines ->
  is_comment_line line = true ->
  from_import_form line module ->
  Py.contains (lit "import *") line = true ->
  exists recorded,
    In recorded (check_invalid_imports lines) /\
    from_import_form line recorded.
Proof.
  intros Hin Hcomment Hform Hstar.
  unfold check_invalid_imports. rewrite invalid_imports_fold. cbn [app].
  pose proof (comment_line_not_plain_import line Hcomment) as Hplain.
  destruct (Re.search FROM_IMPORT line) as [f|] eqn:Hs.
  - exists (Re.group1 line f). split.
    + apply in_flat_map. exists line. split; [exact Hin|].
      unfold invalid_imports_entry, invalid_imports_step.
      unfold plain_import in Hplain. rewrite Hplain, Hs, Hstar. now left.
    + now apply search_from_import_sound.
  - now apply search_from_import_complete in Hform.
Qed.

Lemma commented_wildcard_import_is_reported_witness :
  exists recorded,
    In recorded (check_invalid_imports
                   [lit "import os"; lit "# from os import *"]) /\
    from_import_form (lit "# from os import *") recorded.
Proof.
  apply (commented_wildcard_import_is_reported _ _ (lit "os")).
  - right. now left.
  - reflexivity.
  - exists (lit "# "), " "%char, " "%char, " "%char, (lit "*").
    repeat split; reflexivity.
  - reflexivity.
Defined.

(** ** A run that succeeds *)

Lemma check_class_headers_returns (code_lines : list str) (t : tree) :
  (forall name lineno d,
     In (ClassDef name lineno d) (walk t) ->
     exists def_line,
       (1 <= lineno)%Z /\
       Py.index code_lines (lineno - 1) = Ok def_line /\
       is_comment_line def_line = false) ->
  exists l, check_class_headers code_lines (Ok t) = Ok l.
Proof.
  intros H. unfold check_class_headers. cbn [bind].
  apply for_each_returns. intros acc n Hn.
  destruct n as [| name lineno d | |]; try (simpl; eauto; fail).
  destruct (H name lineno d Hn) as (def_line & H1 & Hd & Hc).
  unfold class_headers_step.
  destruct (comment_header_returns code_lines (lineno - 1) def_line Hd
              ltac:(lia) Hc) as [b ->].
  cbn [bind]. destruct (negb (truthy d) && negb b); eauto.
Qed.

Lemma file_header_returns (t : tree) (first_line : str) (rest : list str) :
  is_comment_line first_line = true \/ body t <> [] ->
  exists b, check_for_file_header (Ok t) (first_line :: rest) = Ok b.
Proof.
  intros H. unfold check_for_file_header. rewrite index_head. cbn [bind].
  destruct (is_comment_line first_line); cbn [negb]; [eauto|].
  destruct H as [H|H]; [discriminate H|].
  unfold has_file_docstring. cbn [bind].
  destruct (body t) as [|n ns]; [contradiction|].
  rewrite index_head. cbn [bind]. destruct n; cbn [bind negb]; eauto.
Qed.

Lemma generate_returns (g : globals) :
  (forall c, In c categories ->
     exists s, dict_get (checkboxes c) (template_variables g) = Ok (VStr s)) ->
  (forall c, In c categories ->
     exists items,
       dict_get (source c) (specific_file_information g) = Ok (Some items)) ->
  exists g', generate_validation_output g = Ok g'.
Proof.
  intros Hcb Hsrc.
  destruct (report_all_spec (specific_file_information g) categories
              categories_NoDup Hsrc (template_variables g) Hcb)
    as (tv' & Hrun & _).
  rewrite generate_validation_output_loops, Hrun. cbn [bind]. eauto.
Qed.

(** X21.  The run of a file writes its report whenever the file is not
    empty and parses, its first line is a comment line or its module body
    is not empty, its function and class definitions stand on lines of the
    file that are not comment lines, and the template is there: the run
    returns, the report is stored under the base name of the file followed
    by [_validation_output.md], and every other report is as before. *)
Theorem file_run_writes_report (f : source_file) (w : world) (t : tree)
    (first_line : str) (rest : list str) (tpl : str) :
  Py.readlines (text f) = first_line :: rest ->
  parsed f = Ok t ->
  is_comment_line first_line = true \/ body t <> [] ->
  (forall name lineno e d,
     In (FunctionDef name lineno e d) (walk t) ->
     exists def_line,
       (1 <= lineno)%Z /\
       Py.index (Py.splitlines (text f)) (lineno - 1) = Ok def_line /\
       is_comment_line def_line = false) ->
  (forall name lineno d,
     In (ClassDef name lineno d) (walk t) ->
     exists def_line,
       (1 <= lineno)%Z /\
       Py.index (Py.splitlines (text f)) (lineno - 1) = Ok def_line /\
       is_comment_line def_line = false) ->
  template (files w) = Some tpl ->
  exists w' content,
    parse_python_file f w = Ok w' /\
    read_file (report_name (basename f)) (reports (files w')) =
      Some content /\
    forall other,
      other <> report_name (basename f) ->
      read_file other (reports (files w')) =
      read_file other (reports (files w)).
Proof.
  intros Hlines Hp Hhead Hf Hc Htpl.
  unfold parse_python_file. rewrite Hlines, Hp. cbn [length Nat.eqb].
  cbv zeta.
  destruct (file_header_returns t first_line rest Hhead) as [b ->].
  cbn [bind]. unfold check_functions_less_than_40_lines. cbn [bind].
  destruct (check_functions_headers_returns _ t Hf) as [hf ->]. cbn [bind].
  destruct (check_class_headers_returns _ t Hc) as [hc ->]. cbn [bind].
  match goal with
  | |- context [generate_validation_output ?g] =>
      destruct (generate_returns g) as [g' Hg]
  end.
  { intros c Hin.
    repeat (destruct Hin as [<-|Hin]; [eexists; reflexivity|]).
    destruct Hin. }
  { intros c Hin.
    repeat (destruct Hin as [<-|Hin]; [eexists; reflexivity|]).
    destruct Hin. }
  rewrite Hg. cbn [bind].
  assert (Hname : dict_get "SCRIPT_NAME" (template_variables g') =
                  Ok (VStr (basename f))).
  { apply generate_frame in Hg. destruct Hg as [_ Hg].
    rewrite Hg; [reflexivity|]. simpl. intuition discriminate. }
  rewrite (write_validation_output_named g' (files w) _ tpl Hname Htpl).
  eexists. eexists. split; [reflexivity|]. cbn [files reports]. split.
  - apply read_write_same.
  - intros other Ho. now apply read_write_other.
Qed.

Lemma file_run_writes_report_witness :
  exists w' content,
    parse_python_file second_tool blank_world = Ok w' /\
    read_file (report_name (basename second_tool)) (reports (files w')) =
      Some content /\
    forall other,
      other <> report_name (basename second_tool) ->
      read_file other (reports (files w')) =
      read_file other (reports (files blank_world)).
Proof.
  apply (file_run_writes_report second_tool blank_world
           {| body := [OtherNode]; walk := [OtherNode] |}
           (lit "# a tool
") [lit "import os
"] (lit "{{SCRIPT_NAME}}: {{INVALID_IMPORT_CHECKBOXES}}")).
  - reflexivity.
  - reflexivity.
  - left. reflexivity.
  - intros name lineno e d [H|[]]. discriminate H.
  - intros name lineno d [H|[]]. discriminate H.
  - reflexivity.
Defined.

(** * The checks on files as the tool reads them *)

(** ** Line length of the lines of a file *)

(** A line that [readlines] returns with its terminator, free of [#], is
    recorded as soon as it has 150 characters before the terminator. *)
Lemma terminated_line_flagged (lines : list str) (i : nat) (code : str) :
  nth_error lines i = Some (code ++ [newline]) ->
  is_comment_line (code ++ [newline]) = false ->
  ~ In "#"%char code ->
  (In (i + 1) (check_implementation_line_length lines) <->
   150 <= length code).
Proof.
  intros Hi Hc Hno.
  rewrite (line_length_flagged lines i _ Hi).
  rewrite sub_empty_comment_suffix, without_comments_no_hash.
  - unfold MAX_LINE_CHARACTERS. rewrite length_app. cbn [length].
    split; [intros [_ H]; lia|intros H; split; [exact Hc|lia]].
  - rewrite in_app_iff. intros [H|[H|[]]]; [now apply Hno|discriminate H].
Qed.

(** C3.  A file line of exactly 150 characters, none of them in a
    comment, is recorded when a newline ends it: [readlines] hands the line
    to the check with its newline, and the check measures 151 characters.
    The first line of [boundary_file] is such a line: the check records
    line 1, and the run of the file clears the flag of line lengths and
    reports line 1.  The same 150 characters as the last line of a file
    without final newline are not recorded.  The standard the script
    announces is at most 150 characters in a line. *)
Theorem line_of_150_characters_is_flagged :
  Py.readlines (text boundary_file) =
    [repeat "a"%char 150 ++ [newline]; lit "x = 1" ++ [newline]] /\
  check_implementation_line_length (Py.readlines (text boundary_file)) = [1] /\
  check_implementation_line_length (Py.readlines (repeat "a"%char 150)) = [] /\
  exists w',
    parse_python_file boundary_file blank_world = Ok w' /\
    dict_get "INVALID_LENGTHY_LINES" (specific_file_information (vars w')) =
      Ok (Some [Num 1]) /\
    dict_get "VALID_LINE_LENGTHS" (template_variables (vars w')) =
      Ok (VBool false) /\
    dict_get "INVALID_LINE_LENGTH_CHECKBOXES" (template_variables (vars w')) =
      Ok (VStr (lit " - [ ] Line Number - 1" ++ [newline])).
Proof.
  split; [vm_compute; reflexivity|].
  split; [vm_compute; reflexivity|].
  split; [vm_compute; reflexivity|].
  destruct (parse_python_file boundary_file blank_world) as [w'|e] eqn:E;
    vm_compute in E; [|discriminate E].
  injection E as <-. eexists. split; [reflexivity|].
  repeat split; vm_compute; reflexivity.
Qed.

(** ** Functions with a reserved name *)

Lemma startswith_split (p s : str) :
  Py.startswith p s = true -> exists rest, s = p ++ rest.
Proof.
  revert s. induction p as [|a p IH]; intros s H; [now exists s|].
  destruct s as [|b s]; [discriminate H|]. cbn [Py.startswith] in H.
  apply andb_true_iff in H. destruct H as [Hab H].
  apply Ascii.eqb_eq in Hab. subst b.
  destruct (IH s H) as [rest ->]. now exists rest.
Qed.

(** The header check passes over every function whose definition line
    holds the text [def __]. *)
Lemma def_dunder_line_never_headless (code_lines : list str) (t : tree)
    (name : str) (l : list str) :
  (forall lineno e d,
     In (FunctionDef name lineno e d) (walk t) ->
     exists def_line,
       Py.index code_lines (lineno - 1) = Ok def_line /\
       Py.contains (lit "def __") def_line = true) ->
  check_functions_headers code_lines (Ok t) = Ok l ->
  ~ In name l.
Proof.
  intros Hdef Hl. unfold check_functions_headers in Hl. cbn [bind] in Hl.
  refine (for_each_invariant (fun acc => ~ In name acc) _ _ _ [] l _ Hl);
    [|intros []].
  intros acc n acc' Hn Hacc Hstep.
  destruct n as [name' lineno e d| | |];
    try (simpl in Hstep; injection Hstep as <-; exact Hacc).
  unfold functions_headers_step in Hstep.
  destruct (Py.index code_lines (lineno - 1)) as [def_line|] eqn:Hd;
    cbn [bind] in Hstep; [|discriminate].
  destruct (Py.contains (lit "def __") def_line) eqn:Hc.
  { injection Hstep as <-. exact Hacc. }
  destruct (comment_header code_lines (lineno - 1)) as [b|];
    cbn [bind] in Hstep; [|discriminate].
  destruct (negb (truthy d) && negb b);
    injection Hstep as <-; [|exact Hacc].
  rewrite in_app_iff. intros [Hin|[->|[]]]; [now apply Hacc|].
  destruct (Hdef lineno e d Hn) as (def_line' & Hd' & Hc').
  congruence.
Qed.

(** The check of long functions lists every function, whatever its name,
    whose measured text spans at least 42 lines. *)
Lemma long_function_listed (code_lines : list str) (t : tree) (name : str)
    (lineno : Z) (e : option Z) (d : option str) :
  In (FunctionDef name lineno e d) (walk t) ->
  42 <= line_count (measured_code code_lines lineno e) ->
  exists l,
    check_functions_less_than_40_lines code_lines (Ok t) = Ok l /\
    In name l.
Proof.
  intros Hn Hlong. unfold check_functions_less_than_40_lines. cbn [bind].
  eexists. split; [reflexivity|].
  rewrite long_functions_fold. cbn [app].
  apply in_flat_map. exists (FunctionDef name lineno e d).
  split; [exact Hn|]. unfold long_functions_entry.
  rewrite long_function_reported by exact Hlong. now left.
Qed.

(** C2 as stated fails on both sides.  The method [__init__] of
    [long_init], 45 lines long, is in the list of long functions.  And the
    method [__init__] of [spaced_init], written with two blanks after
    [def], is in the list of functions without header: the header check
    looks for the text [def __] on the definition line, not at the name. *)
Lemma reserved_name_claim_counterexample :
  reserved_name (lit "__init__") = true /\
  check_functions_less_than_40_lines long_init (Ok long_init_tree) =
    Ok [lit "__init__"] /\
  check_functions_headers spaced_init (Ok spaced_init_tree) =
    Ok [lit "__init__"].
Proof. repeat split; vm_compute; reflexivity. Qed.

(** C2, amended.  A function whose name follows the reserved
    double-underscore convention and whose definition line holds [def],
    one blank and the name is never in the list of functions without
    header.  The check of long functions makes no exception for it: as
    soon as the text it measures for the function spans at least 42 lines,
    the check returns a list that holds the name. *)
Theorem reserved_name_skips_header_check_only (code_lines : list str)
    (t : tree) (name : str) :
  reserved_name name = true ->
  (forall lineno e d,
     In (FunctionDef name lineno e d) (walk t) ->
     exists pre post,
       Py.index code_lines (lineno - 1) =
       Ok (pre ++ lit "def " ++ name ++ post)) ->
  (forall l, check_functions_headers code_lines (Ok t) = Ok l ->
             ~ In name l) /\
  (forall lineno e d,
     In (FunctionDef name lineno e d) (walk t) ->
     42 <= line_count (measured_code code_lines lineno e) ->
     exists l,
       check_functions_less_than_40_lines code_lines (Ok t) = Ok l /\
       In name l).
Proof.
  intros Hname Hdef. split.
  - intros l. apply def_dunder_line_never_headless.
    intros lineno e d Hn.
    destruct (Hdef lineno e d Hn) as (pre & post & Hline).
    unfold reserved_name in Hname. apply andb_true_iff in Hname.
    destruct Hname as [Hname _].
    destruct (startswith_split _ _ Hname) as [rest Hrest].
    eexists. split; [exact Hline|]. rewrite Hrest.
    apply reserved_name_definition_line.
  - intros lineno e d. apply long_function_listed.
Qed.

Lemma reserved_name_skips_header_check_only_witness :
  check_functions_headers long_init (Ok long_init_tree) = Ok [] /\
  (forall l, check_functions_headers long_init (Ok long_init_tree) = Ok l ->
             ~ In (lit "__init__") l) /\
  exists l,
    check_functions_less_than_40_lines long_init (Ok long_init_tree) = Ok l /\
    In (lit "__init__") l.
Proof.
  destruct (reserved_name_skips_header_check_only long_init long_init_tree
              (lit "__init__")) as [Hhead Hlong].
  - reflexivity.
  - intros lineno e d [H|[H|[H|H]]]; try discriminate H.
    + injection H as <- <- <-.
      exists (lit "    "), (lit "(self):"). reflexivity.
    + apply repeat_spec in H. discriminate H.
  - split; [vm_compute; reflexivity|]. split.
    + exact Hhead.
    + apply (Hlong 2%Z (Some 46%Z) None).
      * right. right. now left.
      * apply Nat.leb_le. vm_compute. reflexivity.
Defined.

(** ** The length of a function *)





(** ** The strings of the report *)

Lemma dict_set_keys {V} (k : string) (v : V) (d : dict V) :
  In k (map fst d) -> map fst (dict_set k v d) = map fst d.
Proof.
  induction d as [|[k' v'] d IH]; cbn [map fst dict_set In]; [intros []|].
  destruct (String.eqb k k') eqn:E.
  - apply String.eqb_eq in E. now subst k'.
  - intros [H|H].
    + subst k'. rewrite String.eqb_refl in E. discriminate E.
    + cbn [map fst]. f_equal. now apply IH.
Qed.

(** A loop of the aggregator adds no variable. *)
Lemma report_category_keys (src fl cb : string) (lab : item -> str)
    (info : dict (option (list item))) (tv tv' : dict value) :
  In fl (map fst tv) -> In cb (map fst tv) ->
  report_category src fl cb lab info tv = Ok tv' ->
  map fst tv' = map fst tv.
Proof.
  unfold report_category. intros Hfl Hcb H.
  destruct (dict_get src info) as [[items|]|]; cbn [bind] in H;
    try discriminate H.
  refine (for_each_invariant (fun d => map fst d = map fst tv)
            _ _ _ tv tv' eq_refl H).
  intros acc x acc' _ Hacc Hstep. cbv zeta in Hstep.
  unfold dict_add in Hstep.
  destruct (dict_get cb (dict_set fl (VBool false) acc)) as [[b|s]|];
    cbn [bind] in Hstep; try discriminate Hstep.
  injection Hstep as <-.
  assert (Hk : map fst (dict_set fl (VBool false) acc) = map fst tv).
  { rewrite dict_set_keys; [exact Hacc|now rewrite Hacc]. }
  rewrite dict_set_keys; [exact Hk|now rewrite Hk].
Qed.

Lemma for_each_report_keys (info : dict (option (list item)))
    (cats : list category) :
  forall tv tv',
    (forall c, In c cats ->
       In (flag c) (map fst tv) /\ In (checkboxes c) (map fst tv)) ->
    for_each cats (report info) tv = Ok tv' ->
    map fst tv' = map fst tv.
Proof.
  induction cats as [|c rest IH]; intros tv tv' Hin H; cbn [for_each] in H.
  - now injection H as <-.
  - destruct (report info tv c) as [tv1|] eqn:E; cbn [bind] in H;
      [|discriminate H].
    destruct (Hin c (or_introl eq_refl)) as [Hfl Hcb].
    pose proof (report_category_keys _ _ _ _ _ _ _ Hfl Hcb E) as Hk.
    rewrite <- Hk. apply IH; [|exact H].
    intros c' Hc'. rewrite Hk. apply Hin. now right.
Qed.

(** The checkbox lines the aggregator builds are the unchecked boxes of
    the items, each shown by its text. *)
Lemma checkbox_lines_shown (c : category) (items : list item) :
  In c categories ->
  checkbox_lines (label c) items =
  flat_map (fun x => unchecked_box (shown c x)) items.
Proof.
  intros Hc.
  repeat (destruct Hc as [<-|Hc]; [reflexivity|]). destruct Hc.
Qed.

Ltac explicit_dict H :=
  repeat
    match type of H with
    | map fst ?d = _ :: _ =>
        destruct d as [|[? ?] ?]; [discriminate H|];
        cbn [map fst] in H; injection H as ? H; subst
    end;
  match type of H with
  | map fst ?d = [] => destruct d; [|discriminate H]
  end.

(** C5.  After aggregation, started with every flag true and every
    checkbox string empty, each of the six categories has its flag false
    exactly when its violation list is not empty, and its checkbox string
    is made of one line [ - [ ] text] per item of the list, in the order of
    the list, each ended by a newline, where the text is the name of the
    item, or [Line Number - ] followed by the number for the two lists of
    line numbers; for an empty list the string is empty and, with the
    template variables of [set_data_for_parsing], the report shows
    [None :)] where the template holds the placeholder of the string. *)
Theorem aggregation_flags_and_checkboxes (g : globals) :
  (forall c, In c categories ->
     dict_get (flag c) (template_variables g) = Ok (VBool true) /\
     dict_get (checkboxes c) (template_variables g) = Ok (VStr [])) ->
  (forall c, In c categories ->
     exists items,
       dict_get (source c) (specific_file_information g) = Ok (Some items)) ->
  exists g',
    generate_validation_output g = Ok g' /\
    specific_file_information g' = specific_file_information g /\
    forall c items,
      In c categories ->
      dict_get (source c) (specific_file_information g) = Ok (Some items) ->
      (exists b,
         dict_get (flag c) (template_variables g') = Ok (VBool b) /\
         (b = false <-> items <> [])) /\
      dict_get (checkboxes c) (template_variables g') =
        Ok (VStr (flat_map
                    (fun x => lit " - [ ] " ++ shown c x ++ [newline])
                    items)) /\
      (items = [] ->
       dict_get (checkboxes c) (template_variables g') = Ok (VStr [])) /\
      (items = [] ->
       map fst (template_variables g) =
       map fst (template_variables set_data_for_parsing) ->
       fill_template (placeholder (checkboxes c)) (template_variables g') =
       lit "None :)").
Proof.
  intros Hfresh Hsrc.
  destruct (report_all_spec (specific_file_information g) categories
              categories_NoDup Hsrc (template_variables g))
    as (tv' & Hrun & Hcats & _).
  { intros c Hc. exists []. now apply Hfresh. }
  exists {| template_variables := tv';
            specific_file_information := specific_file_information g |}.
  rewrite generate_validation_output_loops, Hrun. cbn [bind].
  split; [reflexivity|]. split; [reflexivity|].
  intros c items Hc Hi. cbn [template_variables].
  destruct (Hfresh c Hc) as [Hfl Hcb].
  destruct (Hcats c items [] Hc Hi Hcb) as [H1 H2].
  cbn [app] in H1. rewrite (checkbox_lines_shown c items Hc) in H1.
  split; [|split; [exact H1|split]].
  - exists (is_nil items). split.
    + rewrite H2, Hfl. now destruct items.
    + destruct items; cbn [is_nil]; split; congruence.
  - intros ->. exact H1.
  - intros -> Hkeys. cbn [flat_map] in H1.
    assert (Hkeys' : map fst tv' =
                     map fst (template_variables set_data_for_parsing)).
    { rewrite <- Hkeys.
      apply (for_each_report_keys (specific_file_information g) categories);
        [|exact Hrun].
      intros c' Hc'. rewrite Hkeys.
      repeat (destruct Hc' as [<-|Hc'];
              [split; cbn; repeat (first [left; reflexivity | right])|]).
      destruct Hc'. }
    clear Hrun Hcats Hfresh Hsrc Hi Hfl Hcb H2 Hkeys.
    cbn [set_data_for_parsing template_variables map fst] in Hkeys'.
    explicit_dict Hkeys'.
    repeat (destruct Hc as [<-|Hc];
            [cbn in H1; injection H1 as ->; vm_compute; reflexivity|]).
    destruct Hc.
Qed.

Lemma aggregation_flags_and_checkboxes_witness :
  exists g',
    generate_validation_output sample_globals = Ok g' /\
    dict_get "VALID_LINE_LENGTHS" (template_variables g') =
      Ok (VBool false) /\
    dict_get "INVALID_LINE_LENGTH_CHECKBOXES" (template_variables g') =
      Ok (VStr (lit " - [ ] Line Number - 3
 - [ ] Line Number - 17
")) /\
    dict_get "INVALID_IMPORT_CHECKBOXES" (template_variables g') =
      Ok (VStr (lit " - [ ] os
")) /\
    dict_get "VALID_VARIABLE_LENGTHS" (template_variables g') =
      Ok (VBool true) /\
    dict_get "INVALID_VARIABLE_LENGTH_CHECKBOXES" (template_variables g') =
      Ok (VStr []) /\
    fill_template (lit "{{INVALID_VARIABLE_LENGTH_CHECKBOXES}}")
      (template_variables g') = lit "None :)".
Proof.
  destruct (aggregation_flags_and_checkboxes sample_globals)
    as (g' & Hg & _ & H).
  - intros c Hc.
    repeat (destruct Hc as [<-|Hc]; [split; reflexivity|]). destruct Hc.
  - intros c Hc.
    repeat (destruct Hc as [<-|Hc]; [eexists; reflexivity|]). destruct Hc.
  - exists g'. split; [exact Hg|].
    destruct (H {| source := "INVALID_LENGTHY_LINES";
                   flag := "VALID_LINE_LENGTHS";
                   checkboxes := "INVALID_LINE_LENGTH_CHECKBOXES";
                   label := line_number_string |}
                [Num 3; Num 17])
      as ((b1 & Hf1 & Hb1) & Hc1 & _);
      [now left|reflexivity|].
    destruct (H {| source := "INVALID_IMPORTS"; flag := "VALID_IMPORTS";
                   checkboxes := "INVALID_IMPORT_CHECKBOXES";
                   label := item_str |}
                [Name (lit "os")])
      as (_ & Hc6 & _);
      [do 5 right; now left|reflexivity|].
    destruct (H {| source := "INVALID_LENGTHY_VARIABLES";
                   flag := "VALID_VARIABLE_LENGTHS";
                   checkboxes := "INVALID_VARIABLE_LENGTH_CHECKBOXES";
                   label := line_number_string |}
                [])
      as ((b2 & Hf2 & Hb2) & _ & Hc2 & Hr2);
      [right; now left|reflexivity|].
    cbn [flag checkboxes] in *.
    assert (E1 : b1 = false) by (apply Hb1; discriminate).
    assert (E2 : b2 = true).
    { destruct b2; [reflexivity|].
      exfalso. now apply (proj1 Hb2). }
    subst b1 b2.
    split; [exact Hf1|]. split; [exact Hc1|]. split; [exact Hc6|].
    split; [exact Hf2|]. split; [now apply Hc2|].
    now apply Hr2.
Defined.
